(** * qri: dscache maintenance, reference resolution, logsync over HTTP

    A shallow embedding of
      - [dscache/dscache.go]      (the flat index and its event handler),
      - [repo/mem_repo.go]        ([MemRepo.ResolveRef]),
      - [logbook/logsync/http.go] (the HTTP client and handler of logsync),
      - [automation/spec/workflow_store.go] (the contract of workflow listing),
    with the properties the specification states about them.

    Conventions.  A Go pointer that may be nil is an [option].  A Go [int]
    (64 bits on the platforms qri is built for) is a [Z]; conversions to the
    fixed-width fields of the flat buffer are written out with their
    wrap-around ([int32], [int64]).  A method that
    mutates its receiver is a transition of an explicit state.  A run that
    dereferences nil, or reads a flat-buffer vector past its length, ends in
    [Fault]. *)

From Stdlib Require Import String Ascii List ZArith Bool Lia.
From Stdlib Require Import DecimalString.
Import ListNotations.

Local Open Scope string_scope.
Local Open Scope Z_scope.

(* ===================================================================== *)
(** ** Go values *)
(* ===================================================================== *)

Module Go.

(** Conversion of an integer to a signed [w]-bit integer (two's
    complement wrap-around), as Go's [int32(x)] and [int64(x)] do. *)
Definition wrap (w : Z) (x : Z) : Z :=
  (x + 2 ^ (w - 1)) mod 2 ^ w - 2 ^ (w - 1).

Definition int32 (x : Z) : Z := wrap 32 x.
Definition int64 (x : Z) : Z := wrap 64 x.

Definition fits (w : Z) (x : Z) : Prop :=
  - 2 ^ (w - 1) <= x < 2 ^ (w - 1).

(** [len(s)] of a Go string, in bytes. *)
Definition len (s : string) : Z := Z.of_nat (String.length s).

(** Ways a run can stop without returning. *)
Inductive fault : Type :=
| NilDereference
| VectorOutOfRange.

Inductive outcome (A : Type) : Type :=
| Done (a : A)
| Fault (f : fault).

Arguments Done {A} a.
Arguments Fault {A} f.

Definition bind {A B : Type} (m : outcome A) (k : A -> outcome B) : outcome B :=
  match m with
  | Done a => k a
  | Fault f => Fault f
  end.

(** [fmt.Sprintf("%d", n)]. *)
Definition itoa (n : Z) : string := NilZero.string_of_int (Z.to_int n).

End Go.

Notation "x <- m ;; k" := (Go.bind m (fun x => k))
  (at level 61, m at next level, right associativity).
Notation "' p <- m ;; k" := (Go.bind m (fun p => k))
  (at level 61, p pattern, m at next level, right associativity).

(* ===================================================================== *)
(** ** Errors *)
(* ===================================================================== *)

(** Go compares sentinel errors by identity; each sentinel is a
    constructor.  Errors built on the spot by [fmt.Errorf] carry the data
    they are formatted from. *)
Inductive error : Type :=
| ErrRefNotFound                                  (* dsref.ErrRefNotFound *)
| ErrNoDscache                                    (* "dscache: does not exist" *)
| ErrInvalidProfileID                             (* "invalid profileID" *)
| ErrUnknownUsername (username : string)          (* "unknown username %q" *)
| ErrDatasetRefNotFound (username name : string)  (* "dataset ref not found %s/%s" *)
| ErrNoLogbook                (* "cannot resolve local references without logbook" *)
| ErrDecodingPublicKey (cause : error)            (* "decoding public key: %s" *)
| Errorf (msg : string).                          (* any other error value *)

(* ===================================================================== *)
(** ** dsref: references and version infos *)
(* ===================================================================== *)

Module dsref.

(** [dsref.Ref]. *)
Record Ref : Type := mkRef {
  Username : string;
  ProfileID : string;
  Name : string;
  InitID : string;
  Path : string
}.

(** [dsref.VersionInfo], with the fields the sources read or write.
    [CommitTime] is kept as Unix seconds, the only view of it the cache
    stores ([CommitTime.Unix()]) or restores ([time.Unix(t, 0)]). *)
Record VersionInfo : Type := mkVersionInfo {
  viInitID : string;
  viUsername : string;
  viProfileID : string;
  viName : string;
  viPath : string;
  viPublished : bool;
  viForeign : bool;
  viMetaTitle : string;
  viThemeList : string;
  viBodySize : Z;
  viBodyRows : Z;
  viBodyFormat : string;
  viNumErrors : Z;
  viCommitTime : Z;
  viCommitCount : Z;
  viFSIPath : string
}.

End dsref.

(* ===================================================================== *)
(** ** dscachefb: the tables of the flat buffer *)
(* ===================================================================== *)

Module dscachefb.

(** Modelled from the spec: the generated flat-buffer package
    [dscache/dscachefb] is not among the sources.  Its tables are the
    spec's physical layout, [Users: [{Username, ProfileID}]] and
    [Refs: [{InitID, ProfileID, TopIndex, CursorIndex, PrettyName, ...}]],
    plus the [CommitCount] accessor that [convertEntryToVersionInfo]
    reads.  The widths are those of the setters called in
    [updateChangeCursor]: 32 bits for [TopIndex], [CursorIndex],
    [BodyRows], [NumErrors]; 64 bits for [BodySize], [CommitTime]. *)
Record UserAssoc : Type := mkUserAssoc {
  uaUsername : string;
  uaProfileID : string
}.

Record RefEntryInfo : Type := mkRefEntryInfo {
  InitID : string;
  ProfileID : string;
  TopIndex : Z;
  CursorIndex : Z;
  PrettyName : string;
  Published : bool;
  Foreign : bool;
  MetaTitle : string;
  ThemeList : string;
  BodySize : Z;
  BodyRows : Z;
  BodyFormat : string;
  NumErrors : Z;
  CommitTime : Z;
  CommitCount : Z;
  HeadRef : string;
  FsiPath : string
}.

(** The root table.  A serialized buffer is represented by the root
    table it encodes. *)
Record Dscache : Type := mkRoot {
  Users : list UserAssoc;
  Refs : list RefEntryInfo
}.

Definition UsersLength (r : Dscache) : nat := List.length (Users r).
Definition RefsLength (r : Dscache) : nat := List.length (Refs r).

(** [root.Refs(&r, i)]: the generated accessor does not compare [i] with
    the length of the vector; past the end it reads whatever bytes follow.
    Such a read is [None] here and becomes a [Fault] in its callers. *)
Definition RefsAt (r : Dscache) (i : nat) : option RefEntryInfo :=
  nth_error (Refs r) i.

End dscachefb.

(* ===================================================================== *)
(** ** event: what the bus delivers *)
(* ===================================================================== *)

Module event.

Inductive Type_ : Type :=
| ETDatasetNameInit
| ETLogbookWriteCommit
| ETDatasetDeleteAll
| ETDatasetRename
| ETDatasetCreateLink
| ETOther (topic : string).

(** [Payload interface{}]: the dynamic types the handler asserts on, the
    payload of a rename ([initID], [oldName], [newName]), and anything
    else. *)
Inductive Payload : Type :=
| PVersionInfo (vi : dsref.VersionInfo)
| PString (s : string)
| PRename (initID oldName newName : string)
| POther.

Record Event : Type := mkEvent {
  Type' : Type_;
  Payload' : Payload
}.

End event.

(* ===================================================================== *)
(** ** dscache *)
(* ===================================================================== *)

Module dscache.

Import dscachefb.

Definition lengthOfProfileID : Z := 46.

(** [type Dscache struct].  [ProfileIDToUsername] is a memo of [Users]
    used by [ListRefs] only and is left out. *)
Record Dscache : Type := mkDscache {
  Filename : string;
  Root : option dscachefb.Dscache;
  Buffer : option dscachefb.Dscache;
  CreateNewEnabled : bool;
  DefaultUsername : string
}.

Definition setRootBuffer (d : Dscache)
    (root buffer : option dscachefb.Dscache) : Dscache :=
  mkDscache (Filename d) root buffer (CreateNewEnabled d) (DefaultUsername d).

(** [IsEmpty] is nil-callable. *)
Definition IsEmpty (d : option Dscache) : bool :=
  match d with
  | None => true
  | Some c => match Root c with None => true | Some _ => false end
  end.

(** *** Reading *)

Definition convertEntryToVersionInfo (r : RefEntryInfo) : dsref.VersionInfo :=
  {| dsref.viInitID := InitID r;
     dsref.viUsername := "";
     dsref.viProfileID := ProfileID r;
     dsref.viName := PrettyName r;
     dsref.viPath := HeadRef r;
     dsref.viPublished := Published r;
     dsref.viForeign := Foreign r;
     dsref.viMetaTitle := MetaTitle r;
     dsref.viThemeList := ThemeList r;
     dsref.viBodySize := BodySize r;
     dsref.viBodyRows := BodyRows r;
     dsref.viBodyFormat := BodyFormat r;
     dsref.viNumErrors := NumErrors r;
     dsref.viCommitTime := CommitTime r;
     dsref.viCommitCount := CommitCount r;
     dsref.viFSIPath := "" |}.

(** The inner loop of [completeRef] and the first loop of [LookupByName]:
    the first user association satisfying the test. *)
Definition userByProfileID (root : dscachefb.Dscache) (profileID : string)
    : option UserAssoc :=
  find (fun u => String.eqb (uaProfileID u) profileID) (Users root).

Definition userByUsername (root : dscachefb.Dscache) (username : string)
    : option UserAssoc :=
  find (fun u => String.eqb username (uaUsername u)) (Users root).

Definition completeRef (root : dscachefb.Dscache) (ref : dsref.Ref)
    : dsref.Ref * string * option error :=
  match find (fun r => String.eqb (InitID r) (dsref.InitID ref)) (Refs root) with
  | Some r =>
      let ref1 :=
        dsref.mkRef (dsref.Username ref) (ProfileID r) (PrettyName r)
                    (dsref.InitID ref) (HeadRef r) in
      let ref2 :=
        match userByProfileID root (dsref.ProfileID ref1) with
        | Some u =>
            dsref.mkRef (uaUsername u) (dsref.ProfileID ref1) (dsref.Name ref1)
                        (dsref.InitID ref1) (dsref.Path ref1)
        | None => ref1
        end in
      (ref2, "", None)
  | None => (ref, "", Some ErrRefNotFound)
  end.

(** [LookupByName] takes its [ref] by value. *)
Definition LookupByName (root : dscachefb.Dscache) (ref : dsref.Ref)
    : dsref.VersionInfo + error :=
  let profileID :=
    match userByUsername root (dsref.Username ref) with
    | Some u => uaProfileID u
    | None => dsref.ProfileID ref
    end in
  if String.eqb profileID "" then inr (ErrUnknownUsername (dsref.Username ref))
  else
    match find (fun r => String.eqb (ProfileID r) profileID
                         && String.eqb (PrettyName r) (dsref.Name ref))
               (Refs root) with
    | Some r => inl (convertEntryToVersionInfo r)
    | None => inr (ErrDatasetRefNotFound (dsref.Username ref) (dsref.Name ref))
    end.

(** [ResolveRef(ctx, ref *dsref.Ref) (string, error)].  The result holds
    the referent of [ref] after the call, the returned string and the
    returned error. *)
Definition ResolveRef (d : option Dscache) (ref : option dsref.Ref)
    : Go.outcome (option dsref.Ref * string * option error) :=
  match d with
  | None => Go.Done (ref, "", Some ErrRefNotFound)
  | Some c =>
      match Root c with
      | None => Go.Done (ref, "", Some ErrRefNotFound)
      | Some root =>
          match ref with
          | None => Go.Fault Go.NilDereference
          | Some r =>
              if negb (String.eqb (dsref.InitID r) "") then
                let '(r', hint, err) := completeRef root r in
                Go.Done (Some r', hint, err)
              else
                match LookupByName root r with
                | inr _ => Go.Done (Some r, "", Some ErrRefNotFound)
                | inl vi =>
                    let path :=
                      if String.eqb (dsref.Path r) "" then dsref.viPath vi
                      else dsref.Path r in
                    Go.Done (Some (dsref.mkRef (dsref.Username r)
                                               (dsref.viProfileID vi)
                                               (dsref.Name r)
                                               (dsref.viInitID vi) path),
                             "", None)
                end
          end
      end
  end.

Definition validateProfileID (profileID : string) : bool :=
  Go.len profileID =? lengthOfProfileID.

(** *** The builder *)

(** Modelled from the spec: [dscache/builder.go] is not among the sources.
    [AddUser] appends a user association; [AddDsVersionInfoWithIndexes]
    appends a [Refs] entry holding the version info in the layout of the
    spec, with the two indexes given; [AddDsVersionInfo] is the spec's
    "append new Refs entry with zeroed indexes"; [Build] yields a cache
    whose buffer is the table built. *)
Record Builder : Type := mkBuilder {
  bUsers : list UserAssoc;
  bRefs : list RefEntryInfo
}.

Definition NewBuilder : Builder := mkBuilder [] [].

Definition AddUser (b : Builder) (username profileID : string) : Builder :=
  mkBuilder (bUsers b ++ [mkUserAssoc username profileID]) (bRefs b).

Definition entryOfVersionInfo (info : dsref.VersionInfo)
    (topIndex cursorIndex : Z) : RefEntryInfo :=
  {| InitID := dsref.viInitID info;
     ProfileID := dsref.viProfileID info;
     TopIndex := Go.int32 topIndex;
     CursorIndex := Go.int32 cursorIndex;
     PrettyName := dsref.viName info;
     Published := dsref.viPublished info;
     Foreign := dsref.viForeign info;
     MetaTitle := dsref.viMetaTitle info;
     ThemeList := dsref.viThemeList info;
     BodySize := Go.int64 (dsref.viBodySize info);
     BodyRows := Go.int32 (dsref.viBodyRows info);
     BodyFormat := dsref.viBodyFormat info;
     NumErrors := Go.int32 (dsref.viNumErrors info);
     CommitTime := dsref.viCommitTime info;
     CommitCount := Go.int32 (dsref.viCommitCount info);
     HeadRef := dsref.viPath info;
     FsiPath := dsref.viFSIPath info |}.

Definition AddDsVersionInfoWithIndexes (b : Builder)
    (info : dsref.VersionInfo) (topIndex cursorIndex : Z) : Builder :=
  mkBuilder (bUsers b) (bRefs b ++ [entryOfVersionInfo info topIndex cursorIndex]).

Definition AddDsVersionInfo (b : Builder) (info : dsref.VersionInfo) : Builder :=
  AddDsVersionInfoWithIndexes b info 0 0.

Definition Build (b : Builder) : Dscache :=
  let root := mkRoot (bUsers b) (bRefs b) in
  mkDscache "" (Some root) (Some root) false "".

(** Modelled from the spec: the helpers [copyUserAssociationList],
    [copyReferenceListWithReplacement] and [finishBuilding] are not among
    the sources.  From the spec ("updates rebuild the serialized buffer
    wholesale, replacing or omitting the affected entry") and the comments
    of their callers: the user list is copied as it is; every entry is
    copied, except that an entry accepted by [findMatchFunc] is replaced
    by what [replaceRefFunc] makes of it, or left out when
    [replaceRefFunc] is nil.  [replaceRefFunc] receives the function that
    starts the new entry "by mutating an existing ref object"; here it is
    a function from the existing entry to the new one. *)
Definition copyUserAssociationList (root : dscachefb.Dscache) : list UserAssoc :=
  Users root.

Fixpoint copyRefs (refs : list RefEntryInfo)
    (findMatchFunc : RefEntryInfo -> bool)
    (replaceRefFunc : option (RefEntryInfo -> RefEntryInfo))
    : list RefEntryInfo :=
  match refs with
  | [] => []
  | r :: rest =>
      let tail := copyRefs rest findMatchFunc replaceRefFunc in
      if findMatchFunc r then
        match replaceRefFunc with
        | Some f => f r :: tail
        | None => tail
        end
      else r :: tail
  end.

Definition copyReferenceListWithReplacement (root : dscachefb.Dscache)
    (findMatchFunc : RefEntryInfo -> bool)
    (replaceRefFunc : option (RefEntryInfo -> RefEntryInfo))
    : list RefEntryInfo :=
  copyRefs (Refs root) findMatchFunc replaceRefFunc.

Definition finishBuilding (users : list UserAssoc) (refs : list RefEntryInfo)
    : dscachefb.Dscache * dscachefb.Dscache :=
  let root := mkRoot users refs in (root, root).

(** The receiver after [d.Root = root; d.Buffer = serialized] with the
    table of [users] and [refs]. *)
Definition rebuilt (d : Dscache) (users : list UserAssoc)
    (refs : list RefEntryInfo) : Dscache :=
  setRootBuffer d (Some (mkRoot users refs)) (Some (mkRoot users refs)).

(** *** Effects: the log and the file system *)

Inductive FsOp : Type :=
| OpWriteFile (name : string) (data : option dscachefb.Dscache) (perm : Z)
| OpRename (oldpath newpath : string).

Inductive LogEntry : Type :=
| LogError (e : error)
| LogBadPayload (expected : string)
| LogInfo (msg : string).

(** What a run leaves behind, oldest first. *)
Record World : Type := mkWorld {
  logged : list LogEntry;
  disk : list FsOp
}.

Definition emptyWorld : World := mkWorld [] [].

Definition logs (w : World) (l : LogEntry) : World :=
  mkWorld (logged w ++ [l]) (disk w).

Definition fsdo (w : World) (op : FsOp) : World :=
  mkWorld (logged w) (disk w ++ [op]).

Definition isErrNoDscache (e : error) : bool :=
  match e with ErrNoDscache => true | _ => false end.

(** [if err != nil && err != ErrNoDscache { log.Error(err) }] *)
Definition logUnlessNoDscache (err : option error) (w : World) : World :=
  match err with
  | Some e => if isErrNoDscache e then w else logs w (LogError e)
  | None => w
  end.

(** The [VersionInfo] literal both branches of [updateInitDataset] add. *)
Definition nameInitInfo (act : dsref.VersionInfo) : dsref.VersionInfo :=
  {| dsref.viInitID := dsref.viInitID act;
     dsref.viUsername := "";
     dsref.viProfileID := dsref.viProfileID act;
     dsref.viName := dsref.viName act;
     dsref.viPath := "";
     dsref.viPublished := false;
     dsref.viForeign := false;
     dsref.viMetaTitle := "";
     dsref.viThemeList := "";
     dsref.viBodySize := 0;
     dsref.viBodyRows := 0;
     dsref.viBodyFormat := "";
     dsref.viNumErrors := 0;
     dsref.viCommitTime := 0;
     dsref.viCommitCount := 0;
     dsref.viFSIPath := "" |}.

(** "copy users": [for i := 0; i < d.Root.UsersLength(); i++]. *)
Definition copyUsers (root : dscachefb.Dscache) (b : Builder) : Builder :=
  fold_left (fun b up => AddUser b (uaUsername up) (uaProfileID up))
            (Users root) b.

(** The entry the copying loop of [updateInitDataset] makes of an entry. *)
Definition copiedEntry (r : RefEntryInfo) : RefEntryInfo :=
  entryOfVersionInfo (convertEntryToVersionInfo r) (TopIndex r) (CursorIndex r).

(** "copy ds versions": the loop reads [d.Root.Refs(&r, i)] for the
    indexes [i] it is given. *)
Fixpoint copyDsVersions (root : dscachefb.Dscache) (idxs : list nat)
    (b : Builder) : Go.outcome Builder :=
  match idxs with
  | [] => Go.Done b
  | i :: rest =>
      match RefsAt root i with
      | None => Go.Fault Go.VectorOutOfRange
      | Some r =>
          copyDsVersions root rest
            (AddDsVersionInfoWithIndexes b (convertEntryToVersionInfo r)
                                         (TopIndex r) (CursorIndex r))
      end
  end.

(** The entry [updateChangeCursor] makes of a matching entry: started from
    the existing one, with "only the fields we want to change" added. *)
Definition changeCursor (act : dsref.VersionInfo) (r : RefEntryInfo)
    : RefEntryInfo :=
  {| InitID := InitID r;
     ProfileID := ProfileID r;
     TopIndex := Go.int32 (dsref.viCommitCount act);
     CursorIndex := Go.int32 (dsref.viCommitCount act);
     PrettyName := PrettyName r;
     Published := Published r;
     Foreign := Foreign r;
     MetaTitle := dsref.viMetaTitle act;
     ThemeList := ThemeList r;
     BodySize := Go.int64 (dsref.viBodySize act);
     BodyRows := Go.int32 (dsref.viBodyRows act);
     BodyFormat := BodyFormat r;
     NumErrors := Go.int32 (dsref.viNumErrors act);
     CommitTime := dsref.viCommitTime act;
     CommitCount := CommitCount r;
     HeadRef := dsref.viPath act;
     FsiPath := FsiPath r |}.

Section Handler.

(** The answer of the operating system to
    [ioutil.WriteFile(name, data, 0644)]. *)
Variable ioutil_WriteFile : string -> option dscachefb.Dscache -> option error.

(** The transitions below take the receiver [d] (never nil: the handler is
    subscribed as a method of [&cache]) and the world, and give back the
    returned error, the receiver and the world after the call. *)
Definition save (d : Dscache) (w : World) : option error * World :=
  if String.eqb (Filename d) "" then
    (None, logs w (LogInfo "dscache: no filename set, will not save"))
  else
    (ioutil_WriteFile (Filename d) (Buffer d),
     fsdo w (OpWriteFile (Filename d) (Buffer d) 420)).

Definition Assign (d other : Dscache) (w : World)
    : option error * Dscache * World :=
  let d' := setRootBuffer d (Root other) (Buffer other) in
  let (err, w') := save d' w in
  (err, d', w').

Definition updateInitDataset (d : Dscache) (act : dsref.VersionInfo) (w : World)
    : Go.outcome (option error * Dscache * World) :=
  match Root d with
  | None =>
      if negb (CreateNewEnabled d) then Go.Done (None, d, w)
      else if negb (validateProfileID (dsref.viProfileID act)) then
        Go.Done (Some ErrInvalidProfileID, d, w)
      else
        let builder := AddUser NewBuilder (dsref.viUsername act)
                               (dsref.viProfileID act) in
        let builder := AddDsVersionInfo builder (nameInitInfo act) in
        let cache := Build builder in
        let '(_, d', w') := Assign d cache w in
        Go.Done (None, d', w')
  | Some root =>
      let builder := copyUsers root NewBuilder in
      (* for i := 0; i < d.Root.UsersLength(); i++ { d.Root.Refs(&r, i) ... } *)
      builder <- copyDsVersions root (seq 0 (UsersLength root)) builder ;;
      let builder := AddDsVersionInfo builder (nameInitInfo act) in
      let cache := Build builder in
      let '(_, d', w') := Assign d cache w in
      Go.Done (None, d', w')
  end.

Definition updateChangeCursor (d : Dscache) (act : dsref.VersionInfo) (w : World)
    : option error * Dscache * World :=
  match Root d with
  | None => (Some ErrNoDscache, d, w)
  | Some root =>
      let users := copyUserAssociationList root in
      let refs :=
        copyReferenceListWithReplacement root
          (fun r => String.eqb (InitID r) (dsref.viInitID act))
          (Some (changeCursor act)) in
      let (root', serialized) := finishBuilding users refs in
      let d' := setRootBuffer d (Some root') (Some serialized) in
      let (err, w') := save d' w in
      (err, d', w')
  end.

Definition updateDeleteDataset (d : Dscache) (initID : string) (w : World)
    : option error * Dscache * World :=
  match Root d with
  | None => (Some ErrNoDscache, d, w)
  | Some root =>
      let users := copyUserAssociationList root in
      let refs :=
        copyReferenceListWithReplacement root
          (fun r => String.eqb (InitID r) initID)
          None in
      let (root', serialized) := finishBuilding users refs in
      let d' := setRootBuffer d (Some root') (Some serialized) in
      let (err, w') := save d' w in
      (err, d', w')
  end.

(** [handler] always returns nil; what its callees return is logged. *)
Definition handler (d : Dscache) (e : event.Event) (w : World)
    : Go.outcome (option error * Dscache * World) :=
  match event.Type' e with
  | event.ETDatasetNameInit =>
      match event.Payload' e with
      | event.PVersionInfo act =>
          ' (err, d', w') <- updateInitDataset d act w ;;
          Go.Done (None, d', logUnlessNoDscache err w')
      | _ => Go.Done (None, d, logs w (LogBadPayload "dsref.VersionInfo"))
      end
  | event.ETLogbookWriteCommit =>
      match event.Payload' e with
      | event.PVersionInfo act =>
          let '(err, d', w') := updateChangeCursor d act w in
          Go.Done (None, d', logUnlessNoDscache err w')
      | _ => Go.Done (None, d, logs w (LogBadPayload "dsref.VersionInfo"))
      end
  | event.ETDatasetDeleteAll =>
      match event.Payload' e with
      | event.PString initID =>
          let '(err, d', w') := updateDeleteDataset d initID w in
          Go.Done (None, d', logUnlessNoDscache err w')
      | _ => Go.Done (None, d, logs w (LogBadPayload "string"))
      end
  | event.ETDatasetRename => Go.Done (None, d, w)
  | _ => Go.Done (None, d, w)
  end.

End Handler.

(** *** Listing *)

(** [reporef.DatasetRef] with the fields [ListRefs] fills; [Dataset] is
    flattened into its title, its structure counts and [NumVersions].  The
    decoded profile id has the type [ID] of package [profile]. *)
Record DatasetRef (ID : Type) : Type := mkDatasetRef {
  Peername : string;
  drProfileID : ID;
  drName : string;
  drPath : string;
  drFSIPath : string;
  drMetaTitle : string;
  drErrCount : Z;
  drEntries : Z;
  drLength : Z;
  drNumVersions : Z
}.

Arguments mkDatasetRef {ID}.
Arguments Peername {ID}.
Arguments drProfileID {ID}.
Arguments drName {ID}.
Arguments drPath {ID}.
Arguments drFSIPath {ID}.
Arguments drMetaTitle {ID}.
Arguments drErrCount {ID}.
Arguments drEntries {ID}.
Arguments drLength {ID}.
Arguments drNumVersions {ID}.

(** The two lines [ListRefs] may log for an entry. *)
Inductive ListRefsLog : Type :=
| CouldNotParseProfileID (proIDStr : string)
| NoUsernameFor (proIDStr : string).

(** [map[string]string]: at most one pair per key. *)
Definition UsernameMap : Type := list (string * string).

(** [m[key] = value] *)
Definition mapAssign (m : UsernameMap) (key value : string) : UsernameMap :=
  (key, value) :: filter (fun kv => negb (String.eqb (fst kv) key)) m.

(** [value, ok := m[key]] *)
Definition mapIndex (m : UsernameMap) (key : string) : option string :=
  option_map snd (find (fun kv => String.eqb (fst kv) key) m).

(** [ensureProToUserMap]: the field [ProfileIDToUsername] is the argument
    [memo] (nil is [None]); the result is the field after the call. *)
Definition ensureProToUserMap (root : dscachefb.Dscache)
    (memo : option UsernameMap) : UsernameMap :=
  match memo with
  | Some m => m
  | None =>
      fold_left (fun m userAssoc =>
                   mapAssign m (uaProfileID userAssoc) (uaUsername userAssoc))
                (Users root) []
  end.

Section Listing.

Variable ID : Type.

(** [profile.IDB58Decode]: the id and the error it returns. *)
Variable profile_IDB58Decode : string -> ID * option error.

(** One turn of the loop of [ListRefs]: the reference appended and the
    lines logged. *)
Definition listedRef (m : UsernameMap) (refCache : RefEntryInfo)
    : DatasetRef ID * list ListRefsLog :=
  let proIDStr := ProfileID refCache in
  let (profileID, err) := profile_IDB58Decode proIDStr in
  let parseLog :=
    match err with
    | Some _ => [CouldNotParseProfileID proIDStr]
    | None => []
    end in
  let (username, userLog) :=
    match mapIndex m proIDStr with
    | Some username => (username, [])
    | None => ("", [NoUsernameFor proIDStr])
    end in
  (mkDatasetRef username profileID (PrettyName refCache) (HeadRef refCache)
                (FsiPath refCache) (MetaTitle refCache) (NumErrors refCache)
                (BodyRows refCache) (BodySize refCache) (TopIndex refCache),
   (parseLog ++ userLog)%list).

(** [ListRefs]: the slice and the error returned, the field
    [ProfileIDToUsername] after the call, and the lines logged. *)
Definition ListRefs (d : option Dscache) (memo : option UsernameMap)
    : option (list (DatasetRef ID)) * option error
      * option UsernameMap * list ListRefsLog :=
  match d with
  | None => (None, Some ErrNoDscache, memo, [])
  | Some c =>
      match Root c with
      | None => (None, Some ErrNoDscache, memo, [])
      | Some root =>
          let m := ensureProToUserMap root memo in
          let turns := map (listedRef m) (Refs root) in
          (Some (map fst turns), None, Some m, concat (map snd turns))
      end
  end.

End Listing.

(** *** Opening a cache, and a run of events *)

Section Opening.

(** [fsys.Get(ctx, filename)] and [ioutil.ReadAll(f)].  A buffer read is
    represented by the table it encodes, as everywhere. *)
Variable File : Type.
Variable fsys_Get : string -> File + error.
Variable ioutil_ReadAll : File -> dscachefb.Dscache + error.

(** [NewDscache]: the cache constructed and what is logged; the
    subscription of [handler] to the bus is [handleAll] below. *)
Definition NewDscache (username filename : string) : Dscache * list LogEntry :=
  match fsys_Get filename with
  | inr _ => (mkDscache filename None None false username, [])
  | inl f =>
      match ioutil_ReadAll f with
      | inr err => (mkDscache filename None None false username, [LogError err])
      | inl buffer =>
          (mkDscache filename (Some buffer) (Some buffer) false username, [])
      end
  end.

End Opening.

(** The bus delivers the events of one publisher to the handler in publish
    order; what the handler returns is dropped. *)
Fixpoint handleAll
    (ioutil_WriteFile : string -> option dscachefb.Dscache -> option error)
    (d : Dscache) (events : list event.Event) (w : World)
    : Go.outcome (Dscache * World) :=
  match events with
  | [] => Go.Done (d, w)
  | e :: rest =>
      ' (_, d', w') <- handler ioutil_WriteFile d e w ;;
      handleAll ioutil_WriteFile d' rest w'
  end.

End dscache.

(* ===================================================================== *)
(** ** repo: the in-memory repository *)
(* ===================================================================== *)

Module repo.

Section MemRepo.

(** [logbook.Book] and its [ResolveRef] belong to package [logbook]; the
    repository only passes the call on. *)
Variable Book : Type.
Variable logbook_ResolveRef :
  Book -> option dsref.Ref -> Go.outcome (option dsref.Ref * string * option error).

(** The fields of [MemRepo] that [ResolveRef] reads. *)
Record MemRepo : Type := mkMemRepo {
  logbook : option Book;
  dscache : option dscache.Dscache
}.

Definition ResolveRef (r : option MemRepo) (ref : option dsref.Ref)
    : Go.outcome (option dsref.Ref * string * option error) :=
  match r with
  | None => Go.Done (ref, "", Some ErrRefNotFound)
  | Some m =>
      match logbook m with
      | None => Go.Done (ref, "", Some ErrNoLogbook)
      | Some book => logbook_ResolveRef book ref
      end
  end.

End MemRepo.

End repo.

(* ===================================================================== *)
(** ** net/http, as far as logsync uses it *)
(* ===================================================================== *)

Module http.

Definition StatusOK : Z := 200.
Definition StatusBadRequest : Z := 400.
Definition StatusNotFound : Z := 404.

(** [http.Header], with [Set] and [Get] on single values. *)
Definition Header : Type := list (string * string).

Definition Set_ (h : Header) (key value : string) : Header :=
  (key, value) :: filter (fun kv => negb (String.eqb (fst kv) key)) h.

Definition Get (h : Header) (key : string) : string :=
  match find (fun kv => String.eqb (fst kv) key) h with
  | Some kv => snd kv
  | None => ""
  end.

Section Messages.

(** The type of request and response bodies ([io.Reader]). *)
Variable Reader : Type.

Record Request : Type := mkRequest {
  Method : string;
  URL : string;
  ReqHeader : Header;
  (** [r.FormValue(key)] *)
  FormValue : string -> string;
  Body : option Reader
}.

Definition withHeader (r : Request) (h : Header) : Request :=
  mkRequest (Method r) (URL r) h (FormValue r) (Body r).

Record Response : Type := mkResponse {
  StatusCode : Z;
  ResHeader : Header;
  ResBody : Reader
}.

(** What a handler writes to its [http.ResponseWriter]: the text of an
    error, or a stream copied by [io.Copy]. *)
Inductive Chunk : Type :=
| ErrorText (e : error)
| Stream (r : Reader).

(** The state of a [ResponseWriter]: the status line once it is written,
    the header map, the body so far. *)
Record ResponseWriter : Type := mkResponseWriter {
  written : option Z;
  wHeader : Header;
  wBody : list Chunk
}.

Definition newResponseWriter : ResponseWriter := mkResponseWriter None [] [].

(** [w.WriteHeader(code)]; a second call changes nothing. *)
Definition WriteHeader (w : ResponseWriter) (code : Z) : ResponseWriter :=
  match written w with
  | Some _ => w
  | None => mkResponseWriter (Some code) (wHeader w) (wBody w)
  end.

(** [w.Write(data)]: "if WriteHeader has not yet been called, Write calls
    WriteHeader(http.StatusOK) before writing the data". *)
Definition Write (w : ResponseWriter) (c : Chunk) : ResponseWriter :=
  let w' := WriteHeader w StatusOK in
  mkResponseWriter (written w') (wHeader w') (wBody w' ++ [c]).

Definition setHeader (w : ResponseWriter) (h : Header) : ResponseWriter :=
  mkResponseWriter (written w) h (wBody w).

(** The status the client receives: the server sends [200 OK] when the
    handler returns without having written a status. *)
Definition status (w : ResponseWriter) : Z :=
  match written w with
  | Some code => code
  | None => StatusOK
  end.

End Messages.

Arguments mkRequest {Reader}.
Arguments Method {Reader}.
Arguments URL {Reader}.
Arguments ReqHeader {Reader}.
Arguments FormValue {Reader}.
Arguments Body {Reader}.
Arguments withHeader {Reader}.
Arguments mkResponse {Reader}.
Arguments StatusCode {Reader}.
Arguments ResHeader {Reader}.
Arguments ResBody {Reader}.
Arguments ErrorText {Reader}.
Arguments Stream {Reader}.
Arguments mkResponseWriter {Reader}.
Arguments written {Reader}.
Arguments wHeader {Reader}.
Arguments wBody {Reader}.
Arguments newResponseWriter {Reader}.
Arguments WriteHeader {Reader}.
Arguments Write {Reader}.
Arguments setHeader {Reader}.
Arguments status {Reader}.

End http.

(* ===================================================================== *)
(** ** logsync over HTTP *)
(* ===================================================================== *)

Module logsync.

(** What [http.go] calls in other packages: base64, the key codec of
    libp2p, the reference parser of [repo], the HTTP transport and
    [ioutil.ReadAll].  Byte slices are strings. *)
Record Externals : Type := mkExternals {
  PubKey : Type;
  Reader : Type;
  DatasetRef : Type;
  base64_DecodeString : string -> string + error;
  base64_EncodeToString : string -> string;
  crypto_UnmarshalPublicKey : string -> PubKey + error;
  PubKey_Bytes : PubKey -> string + error;
  repo_ParseDatasetRef : string -> DatasetRef + error;
  repo_ConvertToDsref : DatasetRef -> dsref.Ref;
  Ref_String : dsref.Ref -> string;
  http_NewRequest :
    string -> string -> option Reader -> @http.Request Reader + error;
  http_DefaultClient_Do :
    @http.Request Reader -> option (@http.Response Reader) * option error;
  ioutil_ReadAll : Reader -> string + error
}.

Section Logsync.

Variable X : Externals.

(** [log.Author]: an author id and a public key ([log.NewAuthor]). *)
Record Author : Type := NewAuthor {
  AuthorID : string;
  AuthorPubKey : PubKey X
}.

(** The methods of [*Logsync] the handler calls, defined in [logsync.go]:
    each field is what the method returns. *)
Record Logsync : Type := mkLogsync {
  lsync_put : Author -> option (Reader X) -> option error;
  lsync_get : Author -> dsref.Ref -> Author * Reader X + error;
  lsync_del : Author -> dsref.Ref -> option error;
  lsync_Author : Author
}.

Record HTTPClient : Type := mkHTTPClient {
  clientURL : string
}.

Definition addAuthorHTTPHeaders (h : http.Header) (author : Author)
    : http.Header * option error :=
  let h1 := http.Set_ h "AuthorID" (AuthorID author) in
  match PubKey_Bytes X (AuthorPubKey author) with
  | inr err => (h1, Some err)
  | inl pubByteStr =>
      (http.Set_ h1 "PubKey" (base64_EncodeToString X pubByteStr), None)
  end.

Definition senderFromHTTPHeaders (h : http.Header) : Author + error :=
  match base64_DecodeString X (http.Get h "PubKey") with
  | inr err => inr err
  | inl data =>
      match crypto_UnmarshalPublicKey X data with
      | inr err => inr (ErrDecodingPublicKey err)
      | inl pub => inl (NewAuthor (http.Get h "AuthorID") pub)
      end
  end.

(** *** The client *)

(** [fmt.Sprintf("%s?ref=%s", c.URL, ref)] *)
Definition refURL (c : HTTPClient) (ref : dsref.Ref) : string :=
  (clientURL c ++ "?ref=" ++ Ref_String X ref)%string.

(** [fmt.Errorf(string(errmsg))] is the error whose text is the body
    read. *)
Definition put (c : HTTPClient) (author : Author) (r : Reader X)
    : Go.outcome (option error) :=
  match http_NewRequest X "PUT" (clientURL c) (Some r) with
  | inr err => Go.Done (Some err)
  | inl req =>
      match addAuthorHTTPHeaders (http.ReqHeader req) author with
      | (_, Some err) => Go.Done (Some err)
      | (h, None) =>
          let (res, err) := http_DefaultClient_Do X (http.withHeader req h) in
          match res with
          | None => Go.Fault Go.NilDereference
          | Some res =>
              if negb (http.StatusCode res =? http.StatusOK) then
                match ioutil_ReadAll X (http.ResBody res) with
                | inl errmsg => Go.Done (Some (Errorf errmsg))
                | inr _ => Go.Done err
                end
              else Go.Done None
          end
      end
  end.

Definition get (c : HTTPClient) (author : Author) (ref : dsref.Ref)
    : Go.outcome (option Author * option (Reader X) * option error) :=
  match http_NewRequest X "GET" (refURL c ref) None with
  | inr err => Go.Done (None, None, Some err)
  | inl req =>
      match addAuthorHTTPHeaders (http.ReqHeader req) author with
      | (_, Some err) => Go.Done (None, None, Some err)
      | (h, None) =>
          match http_DefaultClient_Do X (http.withHeader req h) with
          | (_, Some err) => Go.Done (None, None, Some err)
          | (None, None) => Go.Fault Go.NilDereference
          | (Some res, None) =>
              if negb (http.StatusCode res =? http.StatusOK) then
                match ioutil_ReadAll X (http.ResBody res) with
                | inl errmsg => Go.Done (None, None, Some (Errorf errmsg))
                | inr _ => Go.Done (None, None, None)
                end
              else
                match senderFromHTTPHeaders (http.ResHeader res) with
                | inr err => Go.Done (None, None, Some err)
                | inl sender => Go.Done (Some sender, Some (http.ResBody res), None)
                end
          end
      end
  end.

Definition del (c : HTTPClient) (author : Author) (ref : dsref.Ref)
    : Go.outcome (option error) :=
  match http_NewRequest X "DELETE" (refURL c ref) None with
  | inr err => Go.Done (Some err)
  | inl req =>
      match addAuthorHTTPHeaders (http.ReqHeader req) author with
      | (_, Some err) => Go.Done (Some err)
      | (h, None) =>
          let (res, err) := http_DefaultClient_Do X (http.withHeader req h) in
          match res with
          | None => Go.Fault Go.NilDereference
          | Some res =>
              if negb (http.StatusCode res =? http.StatusOK) then
                match ioutil_ReadAll X (http.ResBody res) with
                | inl errmsg => Go.Done (Some (Errorf errmsg))
                | inr _ => Go.Done err
                end
              else Go.Done err
          end
      end
  end.

(** *** The handler *)

(** [w.WriteHeader(http.StatusBadRequest); w.Write([]byte(err.Error()))] *)
Definition badRequest (w : @http.ResponseWriter (Reader X)) (err : error)
    : @http.ResponseWriter (Reader X) :=
  http.Write (http.WriteHeader w http.StatusBadRequest) (http.ErrorText err).

(** [addAuthorHTTPHeaders(w.Header(), author)], its error dropped. *)
Definition answerAs (w : @http.ResponseWriter (Reader X)) (author : Author)
    : @http.ResponseWriter (Reader X) :=
  http.setHeader w (fst (addAuthorHTTPHeaders (http.wHeader w) author)).

Definition HTTPHandler (lsync : Logsync)
    (w : @http.ResponseWriter (Reader X)) (r : @http.Request (Reader X))
    : @http.ResponseWriter (Reader X) :=
  match senderFromHTTPHeaders (http.ReqHeader r) with
  | inr err => badRequest w err
  | inl sender =>
      if String.eqb (http.Method r) "PUT" then
        match lsync_put lsync sender (http.Body r) with
        | Some err => badRequest w err
        | None => answerAs w (lsync_Author lsync)
        end
      else if String.eqb (http.Method r) "GET" then
        match repo_ParseDatasetRef X (http.FormValue r "ref") with
        | inr err => badRequest w err
        | inl ref =>
            match lsync_get lsync sender (repo_ConvertToDsref X ref) with
            | inr err => badRequest w err
            | inl (receiver, rd) =>
                http.Write (answerAs w receiver) (http.Stream rd)
            end
        end
      else if String.eqb (http.Method r) "DELETE" then
        match repo_ParseDatasetRef X (http.FormValue r "ref") with
        | inr err => badRequest w err
        | inl ref =>
            match lsync_del lsync sender (repo_ConvertToDsref X ref) with
            | Some err => badRequest w err
            | None => answerAs w (lsync_Author lsync)
            end
        end
      else w
  end.

End Logsync.

Arguments NewAuthor {X}.
Arguments AuthorID {X}.
Arguments AuthorPubKey {X}.
Arguments mkLogsync {X}.
Arguments lsync_put {X}.
Arguments lsync_get {X}.
Arguments lsync_del {X}.
Arguments lsync_Author {X}.

End logsync.

(* ===================================================================== *)
(** ** workflow: listing with offset and limit *)
(* ===================================================================== *)

Module workflow.

(** The fields of [workflow.Workflow] the listing contract looks at. *)
Record Workflow : Type := mkWorkflow {
  ID : string;
  InitID : string;
  OwnerID : string;
  Active : bool
}.

(** [params.List], built by [params.List{}.WithOffsetLimit(offset, limit)]. *)
Record ListParams : Type := WithOffsetLimit {
  Offset : Z;
  Limit : Z
}.

(** [params.ListAll] *)
Definition ListAll : ListParams := WithOffsetLimit 0 (-1).

(** The content of a store, in listing order. *)
Definition Store : Type := list Workflow.

Definition limitOutOfBounds (n : Z) : error :=
  Errorf ("limit of " ++ Go.itoa n ++ " is out of bounds").

Definition offsetOutOfBounds (n : Z) : error :=
  Errorf ("offset of " ++ Go.itoa n ++ " is out of bounds").

(** Modelled from the spec: no implementation of [workflow.Store] is among
    the sources, only the contract [AssertWorkflowLister] checks on one.
    From the spec: listing with limit = -1 returns all; limit = 0 returns
    an empty list; a negative offset or a limit below -1 fails with the
    message [limit of <n> is out of bounds] or
    [offset of <n> is out of bounds]; an offset beyond the end returns an
    empty list, not an error; and S7: with ten items, limit 4 at offsets
    0, 4, 8 returns items 0-3, 4-7 and the last two.  The limit is examined
    before the offset. *)
Definition paginate (items : list Workflow) (lp : ListParams)
    : list Workflow + error :=
  if Limit lp <? -1 then inr (limitOutOfBounds (Limit lp))
  else if Offset lp <? 0 then inr (offsetOutOfBounds (Offset lp))
  else
    let rest := skipn (Z.to_nat (Offset lp)) items in
    if Limit lp =? -1 then inl rest
    else inl (firstn (Z.to_nat (Limit lp)) rest).

(** Modelled from the spec: [List] pages through every stored workflow.
    The owner argument does not filter: [AssertWorkflowLister] stores ten
    workflows of owner "profile_id" and expects all of them back when it
    lists for "test_owner". *)
Definition List_ (store : Store) (owner : string) (lp : ListParams)
    : list Workflow + error :=
  paginate store lp.

(** Modelled from the spec: [ListDeployed] pages through the stored
    workflows that are deployed, that is [Active]: [AssertWorkflowStore]
    expects no item from it while two inactive workflows are stored, and
    one item once one of them is put again with [Active: true]. *)
Definition ListDeployed (store : Store) (owner : string) (lp : ListParams)
    : list Workflow + error :=
  paginate (filter Active store) lp.

End workflow.

(* ===================================================================== *)
(** ** Sample data *)
(* ===================================================================== *)

Module Samples.

Import dscachefb dscache.

(** A profile id of the expected length, and one that is too short. *)
Definition alicePro : string := "QmZePf5LeXow3RW5U1AgEiNbW46YnRGhZ7HPvm1UmPFPwt".
Definition shortPro : string := "QmTooShort".

Definition alice : UserAssoc := mkUserAssoc "alice" alicePro.

(** An entry as a name-init leaves it. *)
Definition fresh (initID name : string) : RefEntryInfo :=
  mkRefEntryInfo initID alicePro 0 0 name false false "" "" 0 0 "" 0 0 0 "" "".

Definition cacheOf (filename : string) (refs : list RefEntryInfo) : Dscache :=
  let root := mkRoot [alice] refs in
  mkDscache filename (Some root) (Some root) false "alice".

(** One user, one dataset. *)
Definition oneDataset : Dscache :=
  cacheOf "dscache.qfb" [fresh "I1" "world_bank"].

(** One user, two datasets. *)
Definition twoDatasets : Dscache :=
  cacheOf "dscache.qfb" [fresh "I1" "world_bank"; fresh "I2" "city_pop"].

(** A cache that holds nothing, with and without the opt-in to create. *)
Definition emptyCache : Dscache := mkDscache "" None None false "alice".
Definition emptyCacheCreating : Dscache := mkDscache "" None None true "alice".

Definition infoOf (initID profileID name : string) : dsref.VersionInfo :=
  dsref.mkVersionInfo initID "alice" profileID name
                      "" false false "" "" 0 0 "" 0 0 0 "".

Definition nameInit (initID profileID name : string) : event.Event :=
  event.mkEvent event.ETDatasetNameInit
                (event.PVersionInfo (infoOf initID profileID name)).

(** The commit of scenario S2: path "/hash/p1", two rows, seventeen bytes,
    the [count]-th commit of dataset "I1". *)
Definition commitInfo (count : Z) : dsref.VersionInfo :=
  dsref.mkVersionInfo "I1" "alice" alicePro "world_bank"
                      "/hash/p1" false false "World Bank" "" 17 2 "csv" 0
                      1600000000 count "".

Definition writeCommit (count : Z) : event.Event :=
  event.mkEvent event.ETLogbookWriteCommit (event.PVersionInfo (commitInfo count)).

Definition rename (initID oldName newName : string) : event.Event :=
  event.mkEvent event.ETDatasetRename (event.PRename initID oldName newName).

Definition deleteAll (initID : string) : event.Event :=
  event.mkEvent event.ETDatasetDeleteAll (event.PString initID).

(** A disk that takes every write, and one that refuses every write. *)
Definition diskOk : string -> option dscachefb.Dscache -> option error :=
  fun _ _ => None.
Definition diskFull : string -> option dscachefb.Dscache -> option error :=
  fun _ _ => Some (Errorf "no space left on device").

(** *** A small world for logsync *)

(** Externals in which keys, readers and parsed references are strings:
    base64 is the identity except on "!", a key cannot be empty, a
    reference cannot be empty, and the network is down: the transport
    gives no response and an error. *)
Definition offline : logsync.Externals :=
  logsync.mkExternals string string string
    (fun s => if String.eqb s "!"
              then inr (Errorf "illegal base64 data at input byte 0")
              else inl s)
    (fun s => s)
    (fun data => if String.eqb data ""
                 then inr (Errorf "proto: short buffer")
                 else inl data)
    (fun key => inl key)
    (fun s => if String.eqb s ""
              then inr (Errorf "cannot parse empty string as dataset reference")
              else inl s)
    (fun s => dsref.mkRef "" "" s "" "")
    (fun ref => dsref.Name ref)
    (fun method url body =>
       inl (http.mkRequest method url [] (fun _ => "") body))
    (fun _ => (None, Some (Errorf "dial tcp: connection refused")))
    (fun r => inl r).

Definition aliceAuthor : logsync.Author offline :=
  logsync.NewAuthor (X:=offline) "alice" "alice-key".

Definition serverAuthor : logsync.Author offline :=
  logsync.NewAuthor (X:=offline) "server" "server-key".

(** A logsync that holds the log of one reference and answers
    [ErrRefNotFound] for any other. *)
Definition serverKnowing (known : string) : logsync.Logsync offline :=
  logsync.mkLogsync (X:=offline)
    (fun _ _ => None)
    (fun _ ref => if String.eqb (dsref.Name ref) known
                  then inl (serverAuthor, "oplog")
                  else inr ErrRefNotFound)
    (fun _ ref => if String.eqb (dsref.Name ref) known
                  then None
                  else Some ErrRefNotFound)
    serverAuthor.

(** A request of alice's with [?ref=ref]. *)
Definition request (method ref : string) : @http.Request string :=
  http.mkRequest method "http://registry/logsync"
    [("AuthorID", "alice"); ("PubKey", "alice-key")]
    (fun key => if String.eqb key "ref" then ref else "")
    None.

Definition client : logsync.HTTPClient := logsync.mkHTTPClient "http://registry/logsync".

(** *** Workflow stores *)

(** The workflow [AssertWorkflowLister] puts at step [i]: dataset
    [dataset_<i>] of owner "profile_id", deployed when [i] is even. *)
Definition workflowAt (i : nat) : workflow.Workflow :=
  workflow.mkWorkflow ("workflow_" ++ Go.itoa (Z.of_nat i))
                      ("dataset_" ++ Go.itoa (Z.of_nat i))
                      "profile_id" (Nat.even i).

(** The store after its ten puts, newest first. *)
Definition tenWorkflows : workflow.Store :=
  map workflowAt [9; 8; 7; 6; 5; 4; 3; 2; 1; 0]%nat.

(** The first store of [AssertWorkflowStore]: two workflows, none
    deployed. *)
Definition twoIdle : workflow.Store :=
  [workflow.mkWorkflow "britt_id" "britt_dataset_id" "britt_pro_id" false;
   workflow.mkWorkflow "alice_id" "alice_dataset_id" "alice_pro_id" false].

(** The world of [offline] with a transport that answers every request
    with [res]; the body of an answer can be read or not. *)
Definition answering (res : @http.Response string) (readable : bool)
    : logsync.Externals :=
  logsync.mkExternals string string string
    (logsync.base64_DecodeString offline)
    (logsync.base64_EncodeToString offline)
    (logsync.crypto_UnmarshalPublicKey offline)
    (logsync.PubKey_Bytes offline)
    (logsync.repo_ParseDatasetRef offline)
    (logsync.repo_ConvertToDsref offline)
    (logsync.Ref_String offline)
    (logsync.http_NewRequest offline)
    (fun _ => (Some res, None))
    (fun r => if readable then inl r else inr (Errorf "unexpected EOF")).


Definition broken : logsync.Externals :=
  answering (http.mkResponse 500 [] "") false.


Definition aliceBroken : logsync.Author broken :=
  logsync.NewAuthor (X:=broken) "alice" "alice-key".

End Samples.

(* ===================================================================== *)
(** ** Properties of the spec, stated for comparison with the code *)
(* ===================================================================== *)

Module Stated.

(** The spec's save discipline, "write-to-temp + rename": the operations
    [ops] write [data] to some other file and rename that file over
    [name]. *)
Definition writeToTempAndRename (name : string)
    (data : option dscachefb.Dscache) (ops : list dscache.FsOp) : Prop :=
  exists tmp perm,
    tmp <> name /\
    ops = [dscache.OpWriteFile tmp data perm; dscache.OpRename tmp name].

Section Rejection.

Variable X : logsync.Externals.
Variable lsync : logsync.Logsync X.

(** The requests the logsync handler turns down: the author headers are
    malformed; the reference of a GET or DELETE cannot be parsed; or the
    operation itself fails (a verification failure, or a reference the
    server does not know). *)
Inductive Rejected (r : @http.Request (logsync.Reader X)) : Prop :=
| MalformedAuthorHeader (err : error) :
    logsync.senderFromHTTPHeaders X (http.ReqHeader r) = inr err ->
    Rejected r
| UnparsableRef (sender : logsync.Author X) (err : error) :
    logsync.senderFromHTTPHeaders X (http.ReqHeader r) = inl sender ->
    http.Method r = "GET" \/ http.Method r = "DELETE" ->
    logsync.repo_ParseDatasetRef X (http.FormValue r "ref") = inr err ->
    Rejected r
| PutFails (sender : logsync.Author X) (err : error) :
    logsync.senderFromHTTPHeaders X (http.ReqHeader r) = inl sender ->
    http.Method r = "PUT" ->
    logsync.lsync_put lsync sender (http.Body r) = Some err ->
    Rejected r
| GetFails (sender : logsync.Author X) (ref : logsync.DatasetRef X)
    (err : error) :
    logsync.senderFromHTTPHeaders X (http.ReqHeader r) = inl sender ->
    http.Method r = "GET" ->
    logsync.repo_ParseDatasetRef X (http.FormValue r "ref") = inl ref ->
    logsync.lsync_get lsync sender (logsync.repo_ConvertToDsref X ref)
    = inr err ->
    Rejected r
| DelFails (sender : logsync.Author X) (ref : logsync.DatasetRef X)
    (err : error) :
    logsync.senderFromHTTPHeaders X (http.ReqHeader r) = inl sender ->
    http.Method r = "DELETE" ->
    logsync.repo_ParseDatasetRef X (http.FormValue r "ref") = inl ref ->
    logsync.lsync_del lsync sender (logsync.repo_ConvertToDsref X ref)
    = Some err ->
    Rejected r.

End Rejection.

End Stated.

(* ===================================================================== *)
(** * Theorems *)
(* ===================================================================== *)

(** ** Integer conversions *)

Lemma wrap_fits (w x : Z) : 0 < w -> Go.fits w x -> Go.wrap w x = x.
Proof.
  unfold Go.fits, Go.wrap. intros Hw Hx.
  assert (Hp : 2 ^ w = 2 * 2 ^ (w - 1)).
  { replace w with (Z.succ (w - 1)) at 1 by lia. apply Z.pow_succ_r. lia. }
  assert (0 < 2 ^ (w - 1)) by (apply Z.pow_pos_nonneg; lia).
  rewrite Z.mod_small; lia.
Qed.

Lemma int32_fits (x : Z) : Go.fits 32 x -> Go.int32 x = x.
Proof. apply wrap_fits. lia. Qed.

Lemma int64_fits (x : Z) : Go.fits 64 x -> Go.int64 x = x.
Proof. apply wrap_fits. lia. Qed.

(** ** Rebuilding the list of entries *)

Section CopyRefs.

Import dscachefb dscache.

Variable findMatchFunc : RefEntryInfo -> bool.

Lemma copyRefs_omit (refs : list RefEntryInfo) :
  copyRefs refs findMatchFunc None
  = filter (fun r => negb (findMatchFunc r)) refs.
Proof.
  induction refs as [|r rest IH]; simpl; [reflexivity|].
  rewrite IH. destruct (findMatchFunc r); reflexivity.
Qed.

Lemma copyRefs_replace (g : RefEntryInfo -> RefEntryInfo)
    (refs : list RefEntryInfo) :
  copyRefs refs findMatchFunc (Some g)
  = map (fun r => if findMatchFunc r then g r else r) refs.
Proof.
  induction refs as [|r rest IH]; simpl; [reflexivity|].
  rewrite IH. destruct (findMatchFunc r); reflexivity.
Qed.

Lemma find_after_omit (refs : list RefEntryInfo) :
  find findMatchFunc (filter (fun r => negb (findMatchFunc r)) refs) = None.
Proof.
  induction refs as [|r rest IH]; simpl; [reflexivity|].
  destruct (findMatchFunc r) eqn:E; simpl; [exact IH|].
  rewrite E. exact IH.
Qed.

End CopyRefs.

(** ** Resolving on a cache that is nil or empty *)

Lemma IsEmpty_ResolveRef (d : option dscache.Dscache) (ref : option dsref.Ref) :
  dscache.IsEmpty d = true ->
  dscache.ResolveRef d ref = Go.Done (ref, "", Some ErrRefNotFound).
Proof.
  unfold dscache.IsEmpty, dscache.ResolveRef.
  destruct d as [c|]; [|reflexivity].
  destruct (dscache.Root c); [discriminate|reflexivity].
Qed.

(** C4.  For every reference argument (a nil pointer included),
    [ResolveRef] on a dscache that is nil or empty returns
    [ErrRefNotFound], leaves the reference as it was and does not fault;
    [ResolveRef] on a nil [MemRepo] does the same, whatever the logbook
    would answer. *)
Theorem ResolveRef_nil_callable
    (d : option dscache.Dscache) (ref : option dsref.Ref)
    (Book : Type)
    (logbook_ResolveRef :
       Book -> option dsref.Ref ->
       Go.outcome (option dsref.Ref * string * option error)) :
  dscache.IsEmpty d = true ->
  dscache.ResolveRef d ref = Go.Done (ref, "", Some ErrRefNotFound)
  /\ repo.ResolveRef Book logbook_ResolveRef None ref
     = Go.Done (ref, "", Some ErrRefNotFound).
Proof.
  intro Hempty. split.
  - apply IsEmpty_ResolveRef. exact Hempty.
  - reflexivity.
Qed.

(** The nil receiver with a nil reference, and an empty cache with a
    reference to resolve; the logbook at hand would fault if asked. *)
Lemma ResolveRef_nil_callable_witness :
  (dscache.ResolveRef None None = Go.Done (None, "", Some ErrRefNotFound)
   /\ repo.ResolveRef unit (fun _ _ => Go.Fault Go.NilDereference) None None
      = Go.Done (None, "", Some ErrRefNotFound))
  /\ (dscache.ResolveRef (Some Samples.emptyCache)
                         (Some (dsref.mkRef "alice" "" "world_bank" "" ""))
      = Go.Done (Some (dsref.mkRef "alice" "" "world_bank" "" ""), "",
                 Some ErrRefNotFound)
      /\ repo.ResolveRef unit (fun _ _ => Go.Fault Go.NilDereference) None
                         (Some (dsref.mkRef "alice" "" "world_bank" "" ""))
         = Go.Done (Some (dsref.mkRef "alice" "" "world_bank" "" ""), "",
                    Some ErrRefNotFound)).
Proof.
  split.
  - apply (ResolveRef_nil_callable None None unit
             (fun _ _ => Go.Fault Go.NilDereference)).
    reflexivity.
  - apply (ResolveRef_nil_callable (Some Samples.emptyCache)
             (Some (dsref.mkRef "alice" "" "world_bank" "" "")) unit
             (fun _ _ => Go.Fault Go.NilDereference)).
    reflexivity.
Defined.

(** The check on emptiness is what makes the call safe: a cache that holds
    data dereferences its argument. *)
Lemma ResolveRef_nil_ref_faults :
  dscache.ResolveRef (Some Samples.oneDataset) None
  = Go.Fault Go.NilDereference.
Proof. reflexivity. Qed.

(** Scenario S1, on the cache: the name resolves to the init id. *)
Example ResolveRef_by_name :
  dscache.ResolveRef (Some Samples.oneDataset)
                     (Some (dsref.mkRef "alice" "" "world_bank" "" ""))
  = Go.Done (Some (dsref.mkRef "alice" Samples.alicePro "world_bank" "I1" ""),
             "", None).
Proof. reflexivity. Qed.

(** ** The handler, event by event *)

Section HandlerFacts.

Import dscachefb dscache.

Variable ioutil_WriteFile : string -> option dscachefb.Dscache -> option error.

(** What [save] leaves on disk, whatever the disk answers. *)
Lemma save_disk (d : Dscache) (w : World) :
  disk (snd (save ioutil_WriteFile d w))
  = if String.eqb (Filename d) "" then disk w
    else (disk w ++ [OpWriteFile (Filename d) (Buffer d) 420])%list.
Proof. unfold save. destruct (String.eqb (Filename d) ""); reflexivity. Qed.

Lemma updateDeleteDataset_root (d : Dscache) (root : dscachefb.Dscache)
    (initID : string) (w : World) :
  Root d = Some root ->
  let d' :=
    rebuilt d (Users root)
      (filter (fun r => negb (String.eqb (InitID r) initID)) (Refs root)) in
  updateDeleteDataset ioutil_WriteFile d initID w
  = (fst (save ioutil_WriteFile d' w), d', snd (save ioutil_WriteFile d' w)).
Proof.
  intro Hroot. unfold updateDeleteDataset. rewrite Hroot.
  unfold copyReferenceListWithReplacement, copyUserAssociationList,
    finishBuilding, rebuilt.
  rewrite copyRefs_omit. simpl.
  destruct (save ioutil_WriteFile _ w) as [err w']. reflexivity.
Qed.

Lemma updateChangeCursor_root (d : Dscache) (root : dscachefb.Dscache)
    (act : dsref.VersionInfo) (w : World) :
  Root d = Some root ->
  let d' :=
    rebuilt d (Users root)
      (map (fun r => if String.eqb (InitID r) (dsref.viInitID act)
                     then changeCursor act r else r)
           (Refs root)) in
  updateChangeCursor ioutil_WriteFile d act w
  = (fst (save ioutil_WriteFile d' w), d', snd (save ioutil_WriteFile d' w)).
Proof.
  intro Hroot. unfold updateChangeCursor. rewrite Hroot.
  unfold copyReferenceListWithReplacement, copyUserAssociationList,
    finishBuilding, rebuilt.
  rewrite copyRefs_replace. simpl.
  destruct (save ioutil_WriteFile _ w) as [err w']. reflexivity.
Qed.

End HandlerFacts.

(** C6.  On a dscache that is not empty, an [ETDatasetDeleteAll] event for
    an init id makes the handler return nil with a rebuilt cache: the users
    are those of before, the entries are those of before without the ones
    of that init id, in the same order; and [ResolveRef] on the new cache
    for a reference carrying that init id returns [ErrRefNotFound]. *)
Theorem handler_DeleteAll_omits
    (ioutil_WriteFile : string -> option dscachefb.Dscache -> option error)
    (d : dscache.Dscache) (root : dscachefb.Dscache)
    (initID : string) (w : dscache.World) :
  dscache.Root d = Some root ->
  initID <> "" ->
  exists d' w' root',
    dscache.handler ioutil_WriteFile d
      (event.mkEvent event.ETDatasetDeleteAll (event.PString initID)) w
    = Go.Done (None, d', w')
    /\ dscache.Root d' = Some root'
    /\ dscachefb.Users root' = dscachefb.Users root
    /\ dscachefb.Refs root'
       = filter (fun r => negb (String.eqb (dscachefb.InitID r) initID))
                (dscachefb.Refs root)
    /\ (forall r, In r (dscachefb.Refs root') <->
                  In r (dscachefb.Refs root) /\ dscachefb.InitID r <> initID)
    /\ forall ref,
         dsref.InitID ref = initID ->
         dscache.ResolveRef (Some d') (Some ref)
         = Go.Done (Some ref, "", Some ErrRefNotFound).
Proof.
  intros Hroot Hid.
  pose proof (updateDeleteDataset_root ioutil_WriteFile d root initID w Hroot)
    as Hupd.
  eexists _, _, _. unfold dscache.handler. simpl.
  rewrite Hupd. simpl.
  split; [reflexivity|].
  split; [reflexivity|].
  split; [reflexivity|].
  split; [reflexivity|].
  split.
  - intro r. simpl. rewrite filter_In, negb_true_iff, String.eqb_neq.
    reflexivity.
  - intros ref Href. unfold dscache.ResolveRef. simpl.
    rewrite Href.
    apply String.eqb_neq in Hid. rewrite Hid. simpl.
    unfold dscache.completeRef. simpl. rewrite Href.
    rewrite (find_after_omit
               (fun r => String.eqb (dscachefb.InitID r) initID)).
    reflexivity.
Qed.

(** Scenario S4 on the cache of one dataset, with a disk that refuses the
    write. *)
Lemma handler_DeleteAll_omits_witness :
  exists d' w' root',
    dscache.handler Samples.diskFull Samples.oneDataset
                    (Samples.deleteAll "I1") dscache.emptyWorld
    = Go.Done (None, d', w')
    /\ dscache.Root d' = Some root'
    /\ dscachefb.Users root' = [Samples.alice]
    /\ dscachefb.Refs root'
       = filter (fun r => negb (String.eqb (dscachefb.InitID r) "I1"))
                [Samples.fresh "I1" "world_bank"]
    /\ (forall r, In r (dscachefb.Refs root') <->
                  In r [Samples.fresh "I1" "world_bank"]
                  /\ dscachefb.InitID r <> "I1")
    /\ forall ref,
         dsref.InitID ref = "I1" ->
         dscache.ResolveRef (Some d') (Some ref)
         = Go.Done (Some ref, "", Some ErrRefNotFound).
Proof.
  apply (handler_DeleteAll_omits Samples.diskFull Samples.oneDataset
           (dscachefb.mkRoot [Samples.alice] [Samples.fresh "I1" "world_bank"])
           "I1" dscache.emptyWorld).
  - reflexivity.
  - discriminate.
Defined.

Lemma Forall2_map_right {A B : Type} (P : A -> B -> Prop) (f : A -> B)
    (l : list A) :
  (forall x, P x (f x)) -> Forall2 P l (map f l).
Proof.
  intro H. induction l as [|x l IH]; simpl; constructor; auto.
Qed.

(** C5, as stated, fails where the commit count does not fit the 32-bit
    field: the 2147483648th commit is stored with index -2147483648. *)
Lemma handler_WriteCommit_count_wraps :
  exists d' w' root',
    dscache.handler Samples.diskOk Samples.oneDataset
                    (Samples.writeCommit 2147483648) dscache.emptyWorld
    = Go.Done (None, d', w')
    /\ dscache.Root d' = Some root'
    /\ map dscachefb.TopIndex (dscachefb.Refs root') = [-2147483648]
    /\ map dscachefb.TopIndex (dscachefb.Refs root')
       <> [dsref.viCommitCount (Samples.commitInfo 2147483648)].
Proof.
  eexists _, _, _.
  split; [reflexivity|].
  split; [reflexivity|].
  split; [vm_compute; reflexivity|].
  vm_compute. discriminate.
Qed.

(** C5, amended.  On a dscache that is not empty, an [ETLogbookWriteCommit]
    event makes the handler return nil with a rebuilt cache: the users are
    those of before; entry by entry, an entry whose init id is not the
    event's is unchanged, and an entry whose init id is the event's keeps
    its init id, profile id and name, has [TopIndex] and [CursorIndex] set
    to the event's commit count converted to int32, [MetaTitle],
    [CommitTime] and [HeadRef] taken from the payload, [BodySize] converted
    to int64, [BodyRows] and [NumErrors] converted to int32.  A count, row
    count or error count that fits 32 bits is stored as it is: after the
    first commit with path [p] the entry has [TopIndex] 1 and [HeadRef]
    [p]. *)
Theorem handler_WriteCommit_replaces
    (ioutil_WriteFile : string -> option dscachefb.Dscache -> option error)
    (d : dscache.Dscache) (root : dscachefb.Dscache)
    (act : dsref.VersionInfo) (w : dscache.World) :
  dscache.Root d = Some root ->
  exists d' w' root',
    dscache.handler ioutil_WriteFile d
      (event.mkEvent event.ETLogbookWriteCommit (event.PVersionInfo act)) w
    = Go.Done (None, d', w')
    /\ dscache.Root d' = Some root'
    /\ dscachefb.Users root' = dscachefb.Users root
    /\ Forall2
         (fun r r' =>
            if String.eqb (dscachefb.InitID r) (dsref.viInitID act) then
              dscachefb.InitID r' = dscachefb.InitID r
              /\ dscachefb.ProfileID r' = dscachefb.ProfileID r
              /\ dscachefb.PrettyName r' = dscachefb.PrettyName r
              /\ dscachefb.TopIndex r' = Go.int32 (dsref.viCommitCount act)
              /\ dscachefb.CursorIndex r' = Go.int32 (dsref.viCommitCount act)
              /\ dscachefb.MetaTitle r' = dsref.viMetaTitle act
              /\ dscachefb.CommitTime r' = dsref.viCommitTime act
              /\ dscachefb.BodySize r' = Go.int64 (dsref.viBodySize act)
              /\ dscachefb.BodyRows r' = Go.int32 (dsref.viBodyRows act)
              /\ dscachefb.NumErrors r' = Go.int32 (dsref.viNumErrors act)
              /\ dscachefb.HeadRef r' = dsref.viPath act
              /\ (Go.fits 32 (dsref.viCommitCount act) ->
                  dscachefb.TopIndex r' = dsref.viCommitCount act
                  /\ dscachefb.CursorIndex r' = dsref.viCommitCount act)
              /\ (Go.fits 32 (dsref.viBodyRows act) ->
                  dscachefb.BodyRows r' = dsref.viBodyRows act)
              /\ (Go.fits 32 (dsref.viNumErrors act) ->
                  dscachefb.NumErrors r' = dsref.viNumErrors act)
              /\ (Go.fits 64 (dsref.viBodySize act) ->
                  dscachefb.BodySize r' = dsref.viBodySize act)
            else r' = r)
         (dscachefb.Refs root) (dscachefb.Refs root').
Proof.
  intro Hroot.
  pose proof (updateChangeCursor_root ioutil_WriteFile d root act w Hroot)
    as Hupd.
  eexists _, _, _. unfold dscache.handler. simpl.
  rewrite Hupd. simpl.
  split; [reflexivity|].
  split; [reflexivity|].
  split; [reflexivity|].
  simpl. apply Forall2_map_right. intro r.
  destruct (String.eqb (dscachefb.InitID r) (dsref.viInitID act));
    [|reflexivity].
  simpl. repeat (split; [reflexivity|]).
  repeat split; intros;
    first [apply int32_fits | apply int64_fits]; assumption.
Qed.

(** Scenario S2: the first commit, of path "/hash/p1", on the cache of one
    dataset. *)
Lemma handler_WriteCommit_replaces_witness :
  exists d' w' root',
    dscache.handler Samples.diskOk Samples.oneDataset
                    (Samples.writeCommit 1) dscache.emptyWorld
    = Go.Done (None, d', w')
    /\ dscache.Root d' = Some root'
    /\ dscachefb.Users root' = [Samples.alice]
    /\ Forall2
         (fun r r' =>
            if String.eqb (dscachefb.InitID r) "I1" then
              dscachefb.InitID r' = dscachefb.InitID r
              /\ dscachefb.ProfileID r' = dscachefb.ProfileID r
              /\ dscachefb.PrettyName r' = dscachefb.PrettyName r
              /\ dscachefb.TopIndex r' = Go.int32 1
              /\ dscachefb.CursorIndex r' = Go.int32 1
              /\ dscachefb.MetaTitle r' = "World Bank"
              /\ dscachefb.CommitTime r' = 1600000000
              /\ dscachefb.BodySize r' = Go.int64 17
              /\ dscachefb.BodyRows r' = Go.int32 2
              /\ dscachefb.NumErrors r' = Go.int32 0
              /\ dscachefb.HeadRef r' = "/hash/p1"
              /\ (Go.fits 32 1 ->
                  dscachefb.TopIndex r' = 1 /\ dscachefb.CursorIndex r' = 1)
              /\ (Go.fits 32 2 -> dscachefb.BodyRows r' = 2)
              /\ (Go.fits 32 0 -> dscachefb.NumErrors r' = 0)
              /\ (Go.fits 64 17 -> dscachefb.BodySize r' = 17)
            else r' = r)
         [Samples.fresh "I1" "world_bank"] (dscachefb.Refs root').
Proof.
  apply (handler_WriteCommit_replaces Samples.diskOk Samples.oneDataset
           (dscachefb.mkRoot [Samples.alice] [Samples.fresh "I1" "world_bank"])
           (Samples.commitInfo 1) dscache.emptyWorld).
  reflexivity.
Defined.

(** Scenario S2, computed: one entry, with [TopIndex] 1, [HeadRef]
    "/hash/p1" and two rows. *)
Example handler_WriteCommit_S2 :
  exists d' w' root',
    dscache.handler Samples.diskOk Samples.oneDataset
                    (Samples.writeCommit 1) dscache.emptyWorld
    = Go.Done (None, d', w')
    /\ dscache.Root d' = Some root'
    /\ map (fun r => (dscachefb.InitID r, dscachefb.TopIndex r,
                      dscachefb.HeadRef r, dscachefb.BodyRows r))
           (dscachefb.Refs root')
       = [("I1", 1, "/hash/p1", 2)].
Proof.
  eexists _, _, _.
  split; [reflexivity|].
  split; [reflexivity|].
  vm_compute. reflexivity.
Qed.

(** C2.  The code does not do what the claim says: the handler has no code
    for [ETDatasetRename] (its case holds a note that renames are still to
    be handled), so a rename event leaves the cache as it was, whatever its
    payload.  On the cache of the dataset "world_bank", the rename of "I1"
    to "wbp" leaves [PrettyName] "world_bank": the old name still resolves
    and the new one does not. *)
Theorem handler_Rename_leaves_cache :
  (forall ioutil_WriteFile d payload w,
      dscache.handler ioutil_WriteFile d
        (event.mkEvent event.ETDatasetRename payload) w
      = Go.Done (None, d, w))
  /\ (exists d' w' root',
        dscache.handler Samples.diskOk Samples.oneDataset
          (Samples.rename "I1" "world_bank" "wbp") dscache.emptyWorld
        = Go.Done (None, d', w')
        /\ dscache.Root d' = Some root'
        /\ map dscachefb.PrettyName (dscachefb.Refs root') = ["world_bank"]
        /\ dscache.ResolveRef (Some d')
             (Some (dsref.mkRef "alice" "" "wbp" "" ""))
           = Go.Done (Some (dsref.mkRef "alice" "" "wbp" "" ""), "",
                      Some ErrRefNotFound)
        /\ dscache.ResolveRef (Some d')
             (Some (dsref.mkRef "alice" "" "world_bank" "" ""))
           = Go.Done (Some (dsref.mkRef "alice" Samples.alicePro
                                        "world_bank" "I1" ""), "", None)).
Proof.
  split.
  - intros. reflexivity.
  - eexists _, _, _. repeat (split; [reflexivity|]). reflexivity.
Qed.

(** ** Name-init on a cache that holds data *)

Section NameInit.

Import dscachefb dscache.

Lemma copyUsers_app (root : dscachefb.Dscache) (b : Builder) :
  copyUsers root b = mkBuilder (bUsers b ++ Users root) (bRefs b).
Proof.
  unfold copyUsers. destruct root as [users refs]. simpl.
  revert b. induction users as [|[u p] users IH]; intro b; simpl.
  - rewrite app_nil_r. destruct b; reflexivity.
  - rewrite IH. simpl. rewrite <- app_assoc. reflexivity.
Qed.

(** The loop over the indexes [start, start + n) copies that slice of the
    entries when it lies inside the vector. *)
Lemma copyDsVersions_inside (root : dscachefb.Dscache) (n start : nat)
    (b : Builder) :
  (start + n <= RefsLength root)%nat ->
  copyDsVersions root (seq start n) b
  = Go.Done (mkBuilder (bUsers b)
               (bRefs b ++ map copiedEntry (firstn n (skipn start (Refs root))))).
Proof.
  unfold RefsLength. revert start b.
  induction n as [|n IH]; intros start b Hle; simpl.
  - rewrite app_nil_r. destruct b; reflexivity.
  - unfold RefsAt.
    destruct (nth_error (Refs root) start) as [r|] eqn:Hnth.
    + rewrite IH by lia. simpl.
      assert (Hskip : skipn start (Refs root) = r :: skipn (S start) (Refs root)).
      { clear - Hnth. revert start Hnth.
        induction (Refs root) as [|x l IHl]; intros [|s] H; simpl in *;
          try discriminate.
        - injection H as ->. reflexivity.
        - apply IHl. exact H. }
      rewrite Hskip. simpl. rewrite <- app_assoc. reflexivity.
    + apply nth_error_None in Hnth. lia.
Qed.

(** It stops on the first index past the end of the vector. *)
Lemma copyDsVersions_outside (root : dscachefb.Dscache) (n start : nat)
    (b : Builder) :
  (start <= RefsLength root < start + n)%nat ->
  copyDsVersions root (seq start n) b = Go.Fault Go.VectorOutOfRange.
Proof.
  unfold RefsLength. revert start b.
  induction n as [|n IH]; intros start b Hlt; simpl; [lia|].
  unfold RefsAt.
  destruct (nth_error (Refs root) start) as [r|] eqn:Hnth.
  - apply IH.
    assert (start < List.length (Refs root))%nat
      by (apply nth_error_Some; congruence).
    lia.
  - reflexivity.
Qed.

End NameInit.

(** On a cache with data and at least as many entries as users, name-init
    keeps as many of the first entries as there are users, and appends the
    new entry with zeroed indexes. *)
Lemma updateInitDataset_keeps_prefix
    (ioutil_WriteFile : string -> option dscachefb.Dscache -> option error)
    (d : dscache.Dscache) (root : dscachefb.Dscache)
    (act : dsref.VersionInfo) (w : dscache.World) :
  dscache.Root d = Some root ->
  (dscachefb.UsersLength root <= dscachefb.RefsLength root)%nat ->
  let d' :=
    dscache.rebuilt d (dscachefb.Users root)
      (map dscache.copiedEntry
           (firstn (dscachefb.UsersLength root) (dscachefb.Refs root))
       ++ [dscache.entryOfVersionInfo (dscache.nameInitInfo act) 0 0]) in
  dscache.updateInitDataset ioutil_WriteFile d act w
  = Go.Done (None, d', snd (dscache.save ioutil_WriteFile d' w)).
Proof.
  intros Hroot Hle. unfold dscache.updateInitDataset. rewrite Hroot.
  rewrite copyUsers_app. simpl.
  rewrite copyDsVersions_inside by (simpl; exact Hle). simpl.
  unfold dscache.Assign, dscache.Build, dscache.AddDsVersionInfo,
    dscache.AddDsVersionInfoWithIndexes, dscache.rebuilt. simpl.
  destruct (dscache.save ioutil_WriteFile _ w) as [err w']. reflexivity.
Qed.

(** With more users than entries the copying loop reads past the entries. *)
Lemma updateInitDataset_reads_outside
    (ioutil_WriteFile : string -> option dscachefb.Dscache -> option error)
    (d : dscache.Dscache) (root : dscachefb.Dscache)
    (act : dsref.VersionInfo) (w : dscache.World) :
  dscache.Root d = Some root ->
  (dscachefb.RefsLength root < dscachefb.UsersLength root)%nat ->
  dscache.updateInitDataset ioutil_WriteFile d act w
  = Go.Fault Go.VectorOutOfRange.
Proof.
  intros Hroot Hlt. unfold dscache.updateInitDataset. rewrite Hroot.
  rewrite copyUsers_app.
  rewrite copyDsVersions_outside by lia. reflexivity.
Qed.

(** C1.  The code does not do what the claim says: the loop that copies
    the entries runs to the number of users, not of entries.  On a cache
    of one user and the two datasets "I1" and "I2", the name-init of "I3"
    leaves the entries "I1" and "I3": "I2" is gone. *)
Theorem handler_NameInit_drops_entry :
  forall ioutil_WriteFile w,
  exists d' w' root',
    dscache.handler ioutil_WriteFile Samples.twoDatasets
      (Samples.nameInit "I3" Samples.alicePro "gdp") w
    = Go.Done (None, d', w')
    /\ dscache.Root d' = Some root'
    /\ map dscachefb.InitID (dscachefb.Refs root') = ["I1"; "I3"]
    /\ ~ In "I2" (map dscachefb.InitID (dscachefb.Refs root')).
Proof.
  intros WF w. eexists _, _, _.
  split; [reflexivity|].
  split; [reflexivity|].
  split; [reflexivity|].
  simpl. intros [H|[H|[]]]; discriminate.
Qed.

(** ** Name-init with a profile id of the wrong length *)

(** C7, as stated, fails twice.  An empty cache that has not opted in to
    being created ([CreateNewEnabled] unset) ignores the event: no
    [ErrInvalidProfileID], nothing logged.  A cache that holds data does
    not look at the profile id at all: the entry is added. *)
Lemma NameInit_invalid_ProfileID_not_rejected :
  Go.len Samples.shortPro <> dscache.lengthOfProfileID
  /\ dscache.updateInitDataset Samples.diskOk Samples.emptyCache
       (Samples.infoOf "I1" Samples.shortPro "world_bank") dscache.emptyWorld
     = Go.Done (None, Samples.emptyCache, dscache.emptyWorld)
  /\ dscache.handler Samples.diskOk Samples.emptyCache
       (Samples.nameInit "I1" Samples.shortPro "world_bank") dscache.emptyWorld
     = Go.Done (None, Samples.emptyCache, dscache.emptyWorld)
  /\ exists d' w' root',
       dscache.handler Samples.diskOk Samples.oneDataset
         (Samples.nameInit "I2" Samples.shortPro "city_pop") dscache.emptyWorld
       = Go.Done (None, d', w')
       /\ dscache.Root d' = Some root'
       /\ map (fun r => (dscachefb.InitID r, dscachefb.ProfileID r))
              (dscachefb.Refs root')
          = [("I1", Samples.alicePro); ("I2", Samples.shortPro)]
       /\ dscache.logged w' = [].
Proof.
  split; [vm_compute; discriminate|].
  split; [reflexivity|].
  split; [reflexivity|].
  eexists _, _, _. repeat (split; [reflexivity|]). reflexivity.
Qed.

(** C7, amended.  On an empty dscache, an [ETDatasetNameInit] event whose
    payload [ProfileID] does not have length 46 adds no entry: the cache
    and the disk are left as they were.  With [CreateNewEnabled] set,
    [updateInitDataset] rejects the event with [ErrInvalidProfileID], which
    the handler logs while returning nil itself; with [CreateNewEnabled]
    unset the event is ignored without an error. *)
Theorem NameInit_invalid_ProfileID_on_empty
    (ioutil_WriteFile : string -> option dscachefb.Dscache -> option error)
    (d : dscache.Dscache) (act : dsref.VersionInfo) (w : dscache.World) :
  dscache.Root d = None ->
  Go.len (dsref.viProfileID act) <> dscache.lengthOfProfileID ->
  dscache.updateInitDataset ioutil_WriteFile d act w
  = Go.Done (if dscache.CreateNewEnabled d then Some ErrInvalidProfileID
             else None,
             d, w)
  /\ dscache.handler ioutil_WriteFile d
       (event.mkEvent event.ETDatasetNameInit (event.PVersionInfo act)) w
     = Go.Done (None, d,
                if dscache.CreateNewEnabled d
                then dscache.logs w (dscache.LogError ErrInvalidProfileID)
                else w).
Proof.
  intros Hroot Hlen.
  assert (Hupd :
    dscache.updateInitDataset ioutil_WriteFile d act w
    = Go.Done (if dscache.CreateNewEnabled d then Some ErrInvalidProfileID
               else None, d, w)).
  { unfold dscache.updateInitDataset. rewrite Hroot.
    destruct (dscache.CreateNewEnabled d); simpl; [|reflexivity].
    unfold dscache.validateProfileID.
    apply Z.eqb_neq in Hlen. rewrite Hlen. reflexivity. }
  split; [exact Hupd|].
  unfold dscache.handler. simpl. rewrite Hupd. simpl.
  destruct (dscache.CreateNewEnabled d); reflexivity.
Qed.

(** An empty cache that may be created, and a profile id of ten bytes. *)
Lemma NameInit_invalid_ProfileID_on_empty_witness :
  dscache.updateInitDataset Samples.diskOk Samples.emptyCacheCreating
    (Samples.infoOf "I1" Samples.shortPro "world_bank") dscache.emptyWorld
  = Go.Done (Some ErrInvalidProfileID, Samples.emptyCacheCreating,
             dscache.emptyWorld)
  /\ dscache.handler Samples.diskOk Samples.emptyCacheCreating
       (Samples.nameInit "I1" Samples.shortPro "world_bank") dscache.emptyWorld
     = Go.Done (None, Samples.emptyCacheCreating,
                dscache.logs dscache.emptyWorld
                             (dscache.LogError ErrInvalidProfileID)).
Proof.
  apply (NameInit_invalid_ProfileID_on_empty Samples.diskOk
           Samples.emptyCacheCreating
           (Samples.infoOf "I1" Samples.shortPro "world_bank")
           dscache.emptyWorld).
  - reflexivity.
  - vm_compute. discriminate.
Defined.

(** Scenario S1 on the cache: with a profile id of length 46 the empty
    cache is created with the user and the entry, indexes zero. *)
Example NameInit_creates_cache :
  exists d' w' root',
    dscache.handler Samples.diskOk Samples.emptyCacheCreating
      (Samples.nameInit "I1" Samples.alicePro "world_bank") dscache.emptyWorld
    = Go.Done (None, d', w')
    /\ dscache.Root d' = Some root'
    /\ root' = dscachefb.mkRoot [Samples.alice] [Samples.fresh "I1" "world_bank"].
Proof.
  eexists _, _, _. repeat (split; [reflexivity|]). vm_compute. reflexivity.
Qed.

(** ** Saving *)

(** C9, as stated, fails: the commit of scenario S2 on a cache saved in
    "dscache.qfb" leaves one operation on disk, the write of the new buffer
    to "dscache.qfb" itself; that is not a write to a temporary file
    followed by a rename. *)
Lemma save_is_not_write_to_temp_and_rename :
  exists d' w',
    dscache.handler Samples.diskOk Samples.oneDataset
                    (Samples.writeCommit 1) dscache.emptyWorld
    = Go.Done (None, d', w')
    /\ dscache.disk w'
       = [dscache.OpWriteFile "dscache.qfb" (dscache.Buffer d') 420]
    /\ ~ Stated.writeToTempAndRename "dscache.qfb" (dscache.Buffer d')
                                     (dscache.disk w').
Proof.
  eexists _, _.
  split; [reflexivity|].
  split; [reflexivity|].
  intros (tmp & perm & Hneq & Hops). simpl in Hops. discriminate.
Qed.

Lemma disk_logUnlessNoDscache (err : option error) (w : dscache.World) :
  dscache.disk (dscache.logUnlessNoDscache err w) = dscache.disk w.
Proof. destruct err as [[]|]; reflexivity. Qed.

Lemma save_disk_rebuilt
    (ioutil_WriteFile : string -> option dscachefb.Dscache -> option error)
    (d : dscache.Dscache) (users : list dscachefb.UserAssoc)
    (refs : list dscachefb.RefEntryInfo) (w : dscache.World) :
  dscache.disk (snd (dscache.save ioutil_WriteFile
                                  (dscache.rebuilt d users refs) w))
  = if String.eqb (dscache.Filename d) "" then dscache.disk w
    else (dscache.disk w
          ++ [dscache.OpWriteFile (dscache.Filename d)
                (Some (dscachefb.mkRoot users refs)) 420])%list.
Proof. rewrite save_disk. reflexivity. Qed.

(** C9, amended.  Whatever the event and whatever the disk answers, a run
    of the handler that returns returns nil.  Either it leaves the cache
    and the disk as they were, or it rebuilds the cache and then: with an
    empty file name nothing is written; otherwise the new buffer is written
    by one [WriteFile], with mode 0644, to the cache file itself, and
    nothing else is done on disk (no temporary file, no rename).  The only
    run that does not return is the name-init that reads past the entries
    of a cache with more users than entries. *)
Theorem handler_saves_in_place
    (ioutil_WriteFile : string -> option dscachefb.Dscache -> option error)
    (d : dscache.Dscache) (e : event.Event) (w : dscache.World) :
  match dscache.handler ioutil_WriteFile d e w with
  | Go.Fault f =>
      f = Go.VectorOutOfRange
      /\ event.Type' e = event.ETDatasetNameInit
      /\ exists root,
           dscache.Root d = Some root
           /\ (dscachefb.RefsLength root < dscachefb.UsersLength root)%nat
  | Go.Done (err, d', w') =>
      err = None
      /\ ((d' = d /\ dscache.disk w' = dscache.disk w)
          \/ exists users refs,
               d' = dscache.rebuilt d users refs
               /\ dscache.disk w'
                  = if String.eqb (dscache.Filename d) "" then dscache.disk w
                    else (dscache.disk w
                          ++ [dscache.OpWriteFile (dscache.Filename d)
                                (Some (dscachefb.mkRoot users refs)) 420])%list)
  end.
Proof.
  destruct e as [ty payload].
  destruct ty; unfold dscache.handler; simpl;
    try (split; [reflexivity|left; split; reflexivity]).
  - (* ETDatasetNameInit *)
    destruct payload as [act| | |]; simpl;
      try (split; [reflexivity|left; split; reflexivity]).
    destruct (dscache.Root d) as [root|] eqn:Hroot.
    + destruct (le_lt_dec (dscachefb.UsersLength root)
                          (dscachefb.RefsLength root)) as [Hle|Hlt].
      * rewrite (updateInitDataset_keeps_prefix ioutil_WriteFile d root act w
                   Hroot Hle).
        simpl. split; [reflexivity|]. right. eexists _, _.
        split; [reflexivity|]. apply save_disk_rebuilt.
      * rewrite (updateInitDataset_reads_outside ioutil_WriteFile d root act w
                   Hroot Hlt).
        simpl. split; [reflexivity|]. split; [reflexivity|].
        exists root. split; [reflexivity|exact Hlt].
    + unfold dscache.updateInitDataset. rewrite Hroot.
      destruct (dscache.CreateNewEnabled d); simpl;
        [|split; [reflexivity|left; split; reflexivity]].
      destruct (dscache.validateProfileID (dsref.viProfileID act)); simpl;
        [|split; [reflexivity|left; split; reflexivity]].
      unfold dscache.Assign.
      change (dscache.setRootBuffer d _ _)
        with (dscache.rebuilt d
                [dscachefb.mkUserAssoc (dsref.viUsername act)
                                       (dsref.viProfileID act)]
                [dscache.entryOfVersionInfo (dscache.nameInitInfo act) 0 0]).
      destruct (dscache.save ioutil_WriteFile _ w) as [err w'] eqn:Hsave.
      simpl. split; [reflexivity|]. right. eexists _, _.
      split; [reflexivity|].
      change w' with (snd (err, w')). rewrite <- Hsave.
      apply save_disk_rebuilt.
  - (* ETLogbookWriteCommit *)
    destruct payload as [act| | |]; simpl;
      try (split; [reflexivity|left; split; reflexivity]).
    destruct (dscache.Root d) as [root|] eqn:Hroot.
    + rewrite (updateChangeCursor_root ioutil_WriteFile d root act w Hroot).
      simpl. split; [reflexivity|]. right. eexists _, _.
      split; [reflexivity|].
      rewrite disk_logUnlessNoDscache. apply save_disk_rebuilt.
    + unfold dscache.updateChangeCursor. rewrite Hroot. simpl.
      split; [reflexivity|left; split; reflexivity].
  - (* ETDatasetDeleteAll *)
    destruct payload as [|initID| |]; simpl;
      try (split; [reflexivity|left; split; reflexivity]).
    destruct (dscache.Root d) as [root|] eqn:Hroot.
    + rewrite (updateDeleteDataset_root ioutil_WriteFile d root initID w Hroot).
      simpl. split; [reflexivity|]. right. eexists _, _.
      split; [reflexivity|].
      rewrite disk_logUnlessNoDscache. apply save_disk_rebuilt.
    + unfold dscache.updateDeleteDataset. rewrite Hroot. simpl.
      split; [reflexivity|left; split; reflexivity].
Qed.

(** A disk that refuses the write: the handler returns nil all the same,
    the cache holds the new entry, and the refusal is in the log. *)
Example handler_survives_failed_save :
  exists d' w' root',
    dscache.handler Samples.diskFull Samples.oneDataset
                    (Samples.writeCommit 1) dscache.emptyWorld
    = Go.Done (None, d', w')
    /\ dscache.Root d' = Some root'
    /\ map dscachefb.HeadRef (dscachefb.Refs root') = ["/hash/p1"]
    /\ dscache.logged w'
       = [dscache.LogError (Errorf "no space left on device")].
Proof.
  eexists _, _, _. repeat (split; [reflexivity|]). reflexivity.
Qed.

(** ** The status of a logsync response *)

Section HandlerStatus.

Variable X : logsync.Externals.
Variable lsync : logsync.Logsync X.

Lemma status_badRequest (err : error) :
  http.status (logsync.badRequest X http.newResponseWriter err)
  = http.StatusBadRequest.
Proof. reflexivity. Qed.

Lemma status_answerAs (author : logsync.Author X) :
  http.status (logsync.answerAs X http.newResponseWriter author)
  = http.StatusOK.
Proof. reflexivity. Qed.

Lemma status_stream (author : logsync.Author X) (rd : logsync.Reader X) :
  http.status (http.Write (logsync.answerAs X http.newResponseWriter author)
                          (http.Stream rd))
  = http.StatusOK.
Proof. reflexivity. Qed.

(** The handler answers 400 to the requests it turns down and 200 to all
    others. *)
Lemma HTTPHandler_status (r : @http.Request (logsync.Reader X)) :
  (Stated.Rejected X lsync r
   /\ http.status (logsync.HTTPHandler X lsync http.newResponseWriter r)
      = http.StatusBadRequest)
  \/ (~ Stated.Rejected X lsync r
      /\ http.status (logsync.HTTPHandler X lsync http.newResponseWriter r)
         = http.StatusOK).
Proof.
  unfold logsync.HTTPHandler.
  destruct (logsync.senderFromHTTPHeaders X (http.ReqHeader r))
    as [sender|err] eqn:Hsender.
  2:{ left. split; [|apply status_badRequest].
      eapply Stated.MalformedAuthorHeader; eassumption. }
  destruct (String.eqb_spec (http.Method r) "PUT") as [Hput|Hput].
  { destruct (logsync.lsync_put lsync sender (http.Body r)) as [err|] eqn:Hop.
    - left. split; [|apply status_badRequest].
      eapply Stated.PutFails; eassumption.
    - right. split; [|apply status_answerAs].
      intros [e H|s e H [Hm|Hm] _|s e H Hm Hf|s ref e H Hm _ _|s ref e H Hm _ _];
        congruence. }
  destruct (String.eqb_spec (http.Method r) "GET") as [Hget|Hget].
  { destruct (logsync.repo_ParseDatasetRef X (http.FormValue r "ref"))
      as [ref|err] eqn:Hparse.
    2:{ left. split; [|apply status_badRequest].
        eapply Stated.UnparsableRef; [eassumption|left; assumption|eassumption]. }
    destruct (logsync.lsync_get lsync sender (logsync.repo_ConvertToDsref X ref))
      as [[receiver rd]|err] eqn:Hop.
    - right. split; [|apply status_stream].
      intros [e H|s e H [Hm|Hm] Hp|s e H Hm Hf|s ref' e H Hm Hp Hf
             |s ref' e H Hm _ _]; congruence.
    - left. split; [|apply status_badRequest].
      eapply Stated.GetFails; eassumption. }
  destruct (String.eqb_spec (http.Method r) "DELETE") as [Hdel|Hdel].
  { destruct (logsync.repo_ParseDatasetRef X (http.FormValue r "ref"))
      as [ref|err] eqn:Hparse.
    2:{ left. split; [|apply status_badRequest].
        eapply Stated.UnparsableRef; [eassumption|right; assumption|eassumption]. }
    destruct (logsync.lsync_del lsync sender (logsync.repo_ConvertToDsref X ref))
      as [err|] eqn:Hop.
    - left. split; [|apply status_badRequest].
      eapply Stated.DelFails; eassumption.
    - right. split; [|apply status_answerAs].
      intros [e H|s e H [Hm|Hm] Hp|s e H Hm Hf|s ref' e H Hm _ _
             |s ref' e H Hm Hp Hf]; congruence. }
  right. split; [|reflexivity].
  intros [e H|s e H [Hm|Hm] Hp|s e H Hm Hf|s ref' e H Hm _ _
         |s ref' e H Hm _ _]; congruence.
Qed.

End HandlerStatus.

(** C3, as stated, fails on its 404: a GET and a DELETE of alice's for a
    reference the server answers [ErrRefNotFound] to get 400, with the
    error as body, while the same requests for the reference the server
    holds get 200. *)
Lemma HTTPHandler_unknown_ref_is_400 :
  logsync.lsync_get (Samples.serverKnowing "alice/world_bank")
    Samples.aliceAuthor (dsref.mkRef "" "" "alice/unknown" "" "")
  = inr ErrRefNotFound
  /\ http.status (logsync.HTTPHandler Samples.offline
                    (Samples.serverKnowing "alice/world_bank")
                    http.newResponseWriter
                    (Samples.request "GET" "alice/unknown"))
     = 400
  /\ http.status (logsync.HTTPHandler Samples.offline
                    (Samples.serverKnowing "alice/world_bank")
                    http.newResponseWriter
                    (Samples.request "DELETE" "alice/unknown"))
     = 400
  /\ http.wBody (logsync.HTTPHandler Samples.offline
                   (Samples.serverKnowing "alice/world_bank")
                   http.newResponseWriter
                   (Samples.request "GET" "alice/unknown"))
     = [http.ErrorText ErrRefNotFound]
  /\ http.StatusBadRequest <> http.StatusNotFound
  /\ http.status (logsync.HTTPHandler Samples.offline
                    (Samples.serverKnowing "alice/world_bank")
                    http.newResponseWriter
                    (Samples.request "GET" "alice/world_bank"))
     = 200.
Proof.
  repeat split; try reflexivity. discriminate.
Qed.

(** C3, amended.  For every logsync HTTP request: malformed author headers,
    a reference of a GET or DELETE that cannot be parsed, or a failure of
    the operation (a verification failure, or a GET or DELETE naming a
    reference unknown to the server) yield 400 Bad Request; every other
    request yields 200 OK; no request yields 404 Not Found. *)
Theorem HTTPHandler_status_codes
    (X : logsync.Externals) (lsync : logsync.Logsync X)
    (r : @http.Request (logsync.Reader X)) :
  (Stated.Rejected X lsync r <->
   http.status (logsync.HTTPHandler X lsync http.newResponseWriter r)
   = http.StatusBadRequest)
  /\ (~ Stated.Rejected X lsync r <->
      http.status (logsync.HTTPHandler X lsync http.newResponseWriter r)
      = http.StatusOK)
  /\ http.status (logsync.HTTPHandler X lsync http.newResponseWriter r)
     <> http.StatusNotFound.
Proof.
  destruct (HTTPHandler_status X lsync r) as [[Hrej Hst]|[Hok Hst]];
    rewrite Hst; unfold http.StatusBadRequest, http.StatusOK,
      http.StatusNotFound.
  - split; [tauto|]. split; [|discriminate].
    split; [tauto|discriminate].
  - split; [|split; [tauto|discriminate]].
    split; [tauto|discriminate].
Qed.

(** The three ways of being turned down, and a request that is served, in
    the small world of [Samples]. *)
Example HTTPHandler_status_samples :
  (* no public key in the headers *)
  http.status (logsync.HTTPHandler Samples.offline
                 (Samples.serverKnowing "alice/world_bank")
                 http.newResponseWriter
                 (http.mkRequest "GET" "http://registry/logsync" []
                                 (fun _ => "alice/world_bank") None))
  = 400
  (* no reference *)
  /\ http.status (logsync.HTTPHandler Samples.offline
                    (Samples.serverKnowing "alice/world_bank")
                    http.newResponseWriter (Samples.request "DELETE" ""))
     = 400
  (* a push that is accepted *)
  /\ http.status (logsync.HTTPHandler Samples.offline
                    (Samples.serverKnowing "alice/world_bank")
                    http.newResponseWriter (Samples.request "PUT" ""))
     = 200
  (* a method the handler has no case for *)
  /\ http.status (logsync.HTTPHandler Samples.offline
                    (Samples.serverKnowing "alice/world_bank")
                    http.newResponseWriter (Samples.request "POST" ""))
     = 200.
Proof. repeat split; reflexivity. Qed.

(** ** The client on a transport that gives no response *)

(** C10.  When the request is built and its headers are set, and the
    transport returns a nil response together with an error, [put] reads
    [res.StatusCode] before it looks at the error: the call ends in a nil
    dereference instead of returning the error.  So does [del]. *)
Theorem put_del_nil_response
    (X : logsync.Externals) (c : logsync.HTTPClient)
    (author : logsync.Author X) :
  (forall (r : logsync.Reader X) req h err,
      logsync.http_NewRequest X "PUT" (logsync.clientURL c) (Some r) = inl req ->
      logsync.addAuthorHTTPHeaders X (http.ReqHeader req) author = (h, None) ->
      logsync.http_DefaultClient_Do X (http.withHeader req h)
      = (None, Some err) ->
      logsync.put X c author r = Go.Fault Go.NilDereference)
  /\ (forall (ref : dsref.Ref) req h err,
        logsync.http_NewRequest X "DELETE" (logsync.refURL X c ref) None
        = inl req ->
        logsync.addAuthorHTTPHeaders X (http.ReqHeader req) author = (h, None) ->
        logsync.http_DefaultClient_Do X (http.withHeader req h)
        = (None, Some err) ->
        logsync.del X c author ref = Go.Fault Go.NilDereference).
Proof.
  split.
  - intros r req h err Hreq Hhdr Hdo.
    unfold logsync.put. rewrite Hreq, Hhdr, Hdo. reflexivity.
  - intros ref req h err Hreq Hhdr Hdo.
    unfold logsync.del. rewrite Hreq, Hhdr, Hdo. reflexivity.
Qed.

(** With the network down, a push and a removal both end in the nil
    dereference. *)
Lemma put_del_nil_response_witness :
  logsync.http_DefaultClient_Do Samples.offline
    (http.withHeader
       (http.mkRequest "PUT" "http://registry/logsync" [] (fun _ => "")
                       (Some "oplog"))
       [("PubKey", "alice-key"); ("AuthorID", "alice")])
  = (None, Some (Errorf "dial tcp: connection refused"))
  /\ logsync.put Samples.offline Samples.client Samples.aliceAuthor "oplog"
     = Go.Fault Go.NilDereference
  /\ logsync.del Samples.offline Samples.client Samples.aliceAuthor
                 (dsref.mkRef "alice" "" "alice/world_bank" "" "")
     = Go.Fault Go.NilDereference.
Proof.
  destruct (put_del_nil_response Samples.offline Samples.client
              Samples.aliceAuthor) as [Hput Hdel].
  split; [reflexivity|]. split.
  - eapply Hput; reflexivity.
  - eapply Hdel; reflexivity.
Defined.

(** [get] looks at the error first, and returns it. *)
Example get_returns_transport_error :
  logsync.get Samples.offline Samples.client Samples.aliceAuthor
              (dsref.mkRef "alice" "" "alice/world_bank" "" "")
  = Go.Done (None, None, Some (Errorf "dial tcp: connection refused")).
Proof. reflexivity. Qed.

(** ** Listing workflows *)

Lemma paginate_all (items : list workflow.Workflow) :
  workflow.paginate items (workflow.WithOffsetLimit 0 (-1)) = inl items.
Proof. reflexivity. Qed.

Lemma paginate_zero_limit (items : list workflow.Workflow) (offset : Z) :
  0 <= offset ->
  workflow.paginate items (workflow.WithOffsetLimit offset 0) = inl [].
Proof.
  intro H. unfold workflow.paginate. simpl.
  destruct (Z.ltb_spec offset 0); [lia|]. reflexivity.
Qed.

Lemma paginate_past_end (items : list workflow.Workflow) (offset limit : Z) :
  -1 <= limit ->
  Z.of_nat (List.length items) <= offset ->
  workflow.paginate items (workflow.WithOffsetLimit offset limit) = inl [].
Proof.
  intros Hl Ho. unfold workflow.paginate. simpl.
  destruct (Z.ltb_spec limit (-1)); [lia|].
  destruct (Z.ltb_spec offset 0); [lia|].
  rewrite skipn_all2 by lia.
  destruct (limit =? -1); [reflexivity|].
  rewrite firstn_nil. reflexivity.
Qed.

Lemma paginate_bad_limit (items : list workflow.Workflow) (offset limit : Z) :
  limit < -1 ->
  workflow.paginate items (workflow.WithOffsetLimit offset limit)
  = inr (Errorf ("limit of " ++ Go.itoa limit ++ " is out of bounds")).
Proof.
  intro H. unfold workflow.paginate. simpl.
  destruct (Z.ltb_spec limit (-1)); [reflexivity|lia].
Qed.

Lemma paginate_bad_offset (items : list workflow.Workflow) (offset limit : Z) :
  -1 <= limit -> offset < 0 ->
  workflow.paginate items (workflow.WithOffsetLimit offset limit)
  = inr (Errorf ("offset of " ++ Go.itoa offset ++ " is out of bounds")).
Proof.
  intros Hl Ho. unfold workflow.paginate. simpl.
  destruct (Z.ltb_spec limit (-1)); [lia|].
  destruct (Z.ltb_spec offset 0); [reflexivity|lia].
Qed.

Lemma filter_length_le {A : Type} (f : A -> bool) (l : list A) :
  (List.length (filter f l) <= List.length l)%nat.
Proof.
  induction l as [|x l IH]; simpl; [lia|].
  destruct (f x); simpl; lia.
Qed.

(** C8, as stated, fails.  [ListDeployed] with limit -1 returns the
    deployed workflows, not all stored ones: none of the two stored in
    [twoIdle], five of the ten of [tenWorkflows].  And the cases of the
    claim overlap: with limit -1 an offset past the end gives the empty
    list, not all items; with limit 0 a negative offset gives the error,
    not the empty list. *)
Lemma ListDeployed_is_not_all_stored :
  workflow.ListDeployed Samples.twoIdle "" workflow.ListAll = inl []
  /\ workflow.List_ Samples.twoIdle "" workflow.ListAll = inl Samples.twoIdle
  /\ workflow.ListDeployed Samples.twoIdle "" workflow.ListAll
     <> inl Samples.twoIdle
  /\ workflow.ListDeployed Samples.tenWorkflows "test_owner"
                           (workflow.WithOffsetLimit 0 (-1))
     = inl (map Samples.workflowAt [8; 6; 4; 2; 0]%nat)
  /\ workflow.List_ Samples.tenWorkflows "test_owner"
                    (workflow.WithOffsetLimit 100 (-1))
     = inl []
  /\ workflow.List_ Samples.tenWorkflows "test_owner"
                    (workflow.WithOffsetLimit (-1) 0)
     = inr (Errorf "offset of -1 is out of bounds").
Proof.
  repeat split; try reflexivity. discriminate.
Qed.

(** C8, amended.  For every workflow store and owner: with limit -1 and
    offset 0, [List] returns all stored items and [ListDeployed] all
    stored items that are deployed; with limit 0 and an offset that is not
    negative both return an empty list; with a limit of at least -1 and an
    offset at or past the end of the store both return an empty list
    without error; a limit below -1 fails with exactly the message
    [limit of <n> is out of bounds], and otherwise a negative offset
    fails with exactly the message [offset of <n> is out of bounds]. *)
Theorem List_limit_and_offset (store : workflow.Store) (owner : string) :
  workflow.List_ store owner (workflow.WithOffsetLimit 0 (-1)) = inl store
  /\ workflow.ListDeployed store owner (workflow.WithOffsetLimit 0 (-1))
     = inl (filter workflow.Active store)
  /\ (forall offset,
        0 <= offset ->
        workflow.List_ store owner (workflow.WithOffsetLimit offset 0) = inl []
        /\ workflow.ListDeployed store owner (workflow.WithOffsetLimit offset 0)
           = inl [])
  /\ (forall offset limit,
        -1 <= limit ->
        Z.of_nat (List.length store) <= offset ->
        workflow.List_ store owner (workflow.WithOffsetLimit offset limit)
        = inl []
        /\ workflow.ListDeployed store owner
                                 (workflow.WithOffsetLimit offset limit)
           = inl [])
  /\ (forall offset limit,
        limit < -1 ->
        workflow.List_ store owner (workflow.WithOffsetLimit offset limit)
        = inr (Errorf ("limit of " ++ Go.itoa limit ++ " is out of bounds"))
        /\ workflow.ListDeployed store owner
                                 (workflow.WithOffsetLimit offset limit)
           = inr (Errorf ("limit of " ++ Go.itoa limit ++ " is out of bounds")))
  /\ (forall offset limit,
        -1 <= limit ->
        offset < 0 ->
        workflow.List_ store owner (workflow.WithOffsetLimit offset limit)
        = inr (Errorf ("offset of " ++ Go.itoa offset ++ " is out of bounds"))
        /\ workflow.ListDeployed store owner
                                 (workflow.WithOffsetLimit offset limit)
           = inr (Errorf ("offset of " ++ Go.itoa offset
                          ++ " is out of bounds"))).
Proof.
  unfold workflow.List_, workflow.ListDeployed.
  split; [apply paginate_all|].
  split; [apply paginate_all|].
  split; [intros; split; apply paginate_zero_limit; assumption|].
  split.
  { intros offset limit Hl Ho. split; apply paginate_past_end; try assumption.
    pose proof (filter_length_le workflow.Active store). lia. }
  split; [intros; split; apply paginate_bad_limit; assumption|].
  intros; split; apply paginate_bad_offset; assumption.
Qed.

(** Scenario S7 and the cases of [AssertWorkflowLister], on the store of
    ten workflows. *)
Lemma List_limit_and_offset_witness :
  workflow.List_ Samples.tenWorkflows "test_owner"
                 (workflow.WithOffsetLimit 0 (-1))
  = inl Samples.tenWorkflows
  /\ workflow.ListDeployed Samples.tenWorkflows "test_owner"
                           (workflow.WithOffsetLimit 0 (-1))
     = inl (filter workflow.Active Samples.tenWorkflows)
  /\ workflow.List_ Samples.tenWorkflows "" (workflow.WithOffsetLimit 0 0)
     = inl []
  /\ workflow.List_ Samples.tenWorkflows "" (workflow.WithOffsetLimit 100 10)
     = inl []
  /\ workflow.List_ Samples.tenWorkflows "test_owner"
                    (workflow.WithOffsetLimit 0 (-10))
     = inr (Errorf "limit of -10 is out of bounds")
  /\ workflow.ListDeployed Samples.tenWorkflows "test_owner"
                           (workflow.WithOffsetLimit (-1) 0)
     = inr (Errorf "offset of -1 is out of bounds").
Proof.
  destruct (List_limit_and_offset Samples.tenWorkflows "test_owner")
    as (Hall & Hdeployed & _ & _ & Hlimit & Hoffset).
  destruct (List_limit_and_offset Samples.tenWorkflows "")
    as (_ & _ & Hzero & Hpast & _ & _).
  split; [exact Hall|].
  split; [exact Hdeployed|].
  split; [apply (Hzero 0); lia|].
  split; [apply (Hpast 100 10); simpl; lia|].
  split; [apply (Hlimit 0 (-10)); lia|].
  apply (Hoffset (-1) 0); lia.
Defined.

(** Scenario S7: pages of four. *)
Example List_pages_of_four :
  workflow.List_ Samples.tenWorkflows "test_owner"
                 (workflow.WithOffsetLimit 0 4)
  = inl (map Samples.workflowAt [9; 8; 7; 6]%nat)
  /\ workflow.List_ Samples.tenWorkflows "test_owner"
                    (workflow.WithOffsetLimit 4 4)
     = inl (map Samples.workflowAt [5; 4; 3; 2]%nat)
  /\ workflow.List_ Samples.tenWorkflows "test_owner"
                    (workflow.WithOffsetLimit 8 4)
     = inl (map Samples.workflowAt [1; 0]%nat).
Proof. repeat split; reflexivity. Qed.

(* ===================================================================== *)
(** * Further properties of the code *)
(* ===================================================================== *)

(** ** What [ResolveRef] returns on a cache that holds data *)

Section Resolving.

Import dscachefb.

Variable d : dscache.Dscache.
Variable root : dscachefb.Dscache.
Hypothesis Hroot : dscache.Root d = Some root.

Lemma ResolveRef_by_id (ref : dsref.Ref) :
  dsref.InitID ref <> "" ->
  dscache.ResolveRef (Some d) (Some ref)
  = let '(r', hint, err) := dscache.completeRef root ref in
    Go.Done (Some r', hint, err).
Proof.
  intro Hid. unfold dscache.ResolveRef. rewrite Hroot.
  apply String.eqb_neq in Hid. rewrite Hid. reflexivity.
Qed.

Lemma ResolveRef_by_name_eq (ref : dsref.Ref) :
  dsref.InitID ref = "" ->
  dscache.ResolveRef (Some d) (Some ref)
  = match dscache.LookupByName root ref with
    | inr _ => Go.Done (Some ref, "", Some ErrRefNotFound)
    | inl vi =>
        Go.Done (Some (dsref.mkRef (dsref.Username ref) (dsref.viProfileID vi)
                         (dsref.Name ref) (dsref.viInitID vi)
                         (if String.eqb (dsref.Path ref) ""
                          then dsref.viPath vi else dsref.Path ref)),
                 "", None)
    end.
Proof.
  intro Hid. unfold dscache.ResolveRef. rewrite Hroot, Hid. reflexivity.
Qed.

End Resolving.

(** X1.  On a reference that is not nil, [ResolveRef] never faults and never
    returns a hint; the only error it returns is [ErrRefNotFound], and then
    the reference is left as it was.  This holds for every cache, nil and
    empty ones included. *)
Theorem ResolveRef_errors_are_not_found
    (d : option dscache.Dscache) (ref : dsref.Ref) :
  exists ref' err,
    dscache.ResolveRef d (Some ref) = Go.Done (Some ref', "", err)
    /\ (err = None \/ (err = Some ErrRefNotFound /\ ref' = ref)).
Proof.
  destruct d as [c|]; [|exists ref, (Some ErrRefNotFound); split; auto].
  destruct (dscache.Root c) as [root|] eqn:Hroot.
  2:{ exists ref, (Some ErrRefNotFound). unfold dscache.ResolveRef.
      rewrite Hroot. auto. }
  destruct (String.eqb_spec (dsref.InitID ref) "") as [Hid|Hid].
  - rewrite (ResolveRef_by_name_eq c root Hroot ref Hid).
    destruct (dscache.LookupByName root ref) as [vi|e].
    + eexists _, _. split; [reflexivity|]. left. reflexivity.
    + eexists _, _. split; [reflexivity|]. right. split; reflexivity.
  - rewrite (ResolveRef_by_id c root Hroot ref Hid).
    unfold dscache.completeRef.
    destruct (find _ (dscachefb.Refs root)) as [r|].
    + eexists _, _. split; [reflexivity|]. left. reflexivity.
    + eexists _, _. split; [reflexivity|]. right. split; reflexivity.
Qed.

(** X2.  On a cache that holds data, [ResolveRef] for a reference with an
    init id fails with [ErrRefNotFound] exactly when no entry has that init
    id.  Otherwise it succeeds, keeps the init id, and takes name, profile
    id and path from an entry with that init id (a path the caller gave is
    overwritten); the username becomes that of a user with the entry's
    profile id, and stays as given when there is no such user. *)
Theorem ResolveRef_by_InitID
    (d : dscache.Dscache) (root : dscachefb.Dscache) (ref : dsref.Ref) :
  dscache.Root d = Some root ->
  dsref.InitID ref <> "" ->
  ((forall e, In e (dscachefb.Refs root) ->
              dscachefb.InitID e <> dsref.InitID ref)
   /\ dscache.ResolveRef (Some d) (Some ref)
      = Go.Done (Some ref, "", Some ErrRefNotFound))
  \/ exists e ref',
       In e (dscachefb.Refs root)
       /\ dscachefb.InitID e = dsref.InitID ref
       /\ dscache.ResolveRef (Some d) (Some ref) = Go.Done (Some ref', "", None)
       /\ dsref.InitID ref' = dsref.InitID ref
       /\ dsref.Name ref' = dscachefb.PrettyName e
       /\ dsref.ProfileID ref' = dscachefb.ProfileID e
       /\ dsref.Path ref' = dscachefb.HeadRef e
       /\ ((exists u, In u (dscachefb.Users root)
                      /\ dscachefb.uaProfileID u = dscachefb.ProfileID e
                      /\ dsref.Username ref' = dscachefb.uaUsername u)
           \/ ((forall u, In u (dscachefb.Users root) ->
                          dscachefb.uaProfileID u <> dscachefb.ProfileID e)
               /\ dsref.Username ref' = dsref.Username ref)).
Proof.
  intros Hroot Hid.
  rewrite (ResolveRef_by_id d root Hroot ref Hid).
  unfold dscache.completeRef.
  destruct (find (fun r => String.eqb (dscachefb.InitID r) (dsref.InitID ref))
                 (dscachefb.Refs root)) as [e|] eqn:Hfind.
  - right. apply find_some in Hfind. destruct Hfind as [Hin Heq].
    apply String.eqb_eq in Heq.
    unfold dscache.userByProfileID. simpl.
    destruct (find (fun u => String.eqb (dscachefb.uaProfileID u)
                                        (dscachefb.ProfileID e))
                   (dscachefb.Users root)) as [u|] eqn:Huser.
    + apply find_some in Huser. destruct Huser as [Huin Hueq].
      apply String.eqb_eq in Hueq.
      eexists e, _. repeat (split; [first [eassumption|reflexivity]|]).
      left. exists u. auto.
    + eexists e, _. repeat (split; [first [eassumption|reflexivity]|]).
      right. split; [|reflexivity].
      intros u Hu Heq'.
      pose proof (find_none _ _ Huser u Hu) as Hnone. simpl in Hnone.
      apply String.eqb_neq in Hnone. contradiction.
  - left. split; [|reflexivity].
    intros e He Heq.
    pose proof (find_none _ _ Hfind e He) as Hnone. simpl in Hnone.
    apply String.eqb_neq in Hnone. contradiction.
Qed.

(** An init id the cache holds, and one it does not. *)
Lemma ResolveRef_by_InitID_witness :
  (((forall e, In e [Samples.fresh "I1" "world_bank"] ->
               dscachefb.InitID e <> "I9")
    /\ dscache.ResolveRef (Some Samples.oneDataset)
                          (Some (dsref.mkRef "" "" "" "I9" ""))
       = Go.Done (Some (dsref.mkRef "" "" "" "I9" ""), "", Some ErrRefNotFound))
   \/ exists e ref',
        In e [Samples.fresh "I1" "world_bank"]
        /\ dscachefb.InitID e = "I9"
        /\ dscache.ResolveRef (Some Samples.oneDataset)
                              (Some (dsref.mkRef "" "" "" "I9" ""))
           = Go.Done (Some ref', "", None)
        /\ dsref.InitID ref' = "I9"
        /\ dsref.Name ref' = dscachefb.PrettyName e
        /\ dsref.ProfileID ref' = dscachefb.ProfileID e
        /\ dsref.Path ref' = dscachefb.HeadRef e
        /\ ((exists u, In u [Samples.alice]
                       /\ dscachefb.uaProfileID u = dscachefb.ProfileID e
                       /\ dsref.Username ref' = dscachefb.uaUsername u)
            \/ ((forall u, In u [Samples.alice] ->
                           dscachefb.uaProfileID u <> dscachefb.ProfileID e)
                /\ dsref.Username ref' = "")))
  /\ dscache.ResolveRef (Some Samples.oneDataset)
                        (Some (dsref.mkRef "" "" "" "I1" "/stale"))
     = Go.Done (Some (dsref.mkRef "alice" Samples.alicePro "world_bank" "I1" ""),
                "", None).
Proof.
  split.
  - apply (ResolveRef_by_InitID Samples.oneDataset
             (dscachefb.mkRoot [Samples.alice] [Samples.fresh "I1" "world_bank"])
             (dsref.mkRef "" "" "" "I9" "")).
    + reflexivity.
    + discriminate.
  - reflexivity.
Defined.

(** What a successful [LookupByName] found. *)
Lemma LookupByName_found
    (root : dscachefb.Dscache) (ref : dsref.Ref) (vi : dsref.VersionInfo) :
  dscache.LookupByName root ref = inl vi ->
  exists e,
    In e (dscachefb.Refs root)
    /\ vi = dscache.convertEntryToVersionInfo e
    /\ dscachefb.PrettyName e = dsref.Name ref
    /\ dscachefb.ProfileID e <> ""
    /\ ((exists u, In u (dscachefb.Users root)
                   /\ dscachefb.uaUsername u = dsref.Username ref
                   /\ dscachefb.ProfileID e = dscachefb.uaProfileID u)
        \/ ((forall u, In u (dscachefb.Users root) ->
                       dscachefb.uaUsername u <> dsref.Username ref)
            /\ dscachefb.ProfileID e = dsref.ProfileID ref)).
Proof.
  unfold dscache.LookupByName. intro Hres.
  set (profileID :=
         match dscache.userByUsername root (dsref.Username ref) with
         | Some u => dscachefb.uaProfileID u
         | None => dsref.ProfileID ref
         end) in *.
  destruct (String.eqb_spec profileID "") as [Hpro|Hpro]; [discriminate|].
  destruct (find _ (dscachefb.Refs root)) as [e|] eqn:Hfind; [|discriminate].
  apply find_some in Hfind. destruct Hfind as [Hin Hmatch].
  apply andb_true_iff in Hmatch. destruct Hmatch as [Hp Hn].
  apply String.eqb_eq in Hp. apply String.eqb_eq in Hn.
  injection Hres as <-.
  exists e.
  split; [exact Hin|]. split; [reflexivity|]. split; [exact Hn|].
  split; [congruence|].
  subst profileID. unfold dscache.userByUsername in *.
  destruct (find (fun u => String.eqb (dsref.Username ref)
                                      (dscachefb.uaUsername u))
                 (dscachefb.Users root)) as [u|] eqn:Huser.
  - left. apply find_some in Huser. destruct Huser as [Huin Hueq].
    apply String.eqb_eq in Hueq. exists u. auto.
  - right. split; [|exact Hp].
    intros u Hu Heq.
    pose proof (find_none _ _ Huser u Hu) as Hnone. simpl in Hnone.
    apply String.eqb_neq in Hnone. congruence.
Qed.

(** X3.  On a cache that holds data, when [ResolveRef] succeeds for a
    reference without init id, the init id and profile id it fills in are
    those of an entry of the cache whose name is the reference's name;
    username and name are left as given, and a path the caller gave is
    kept (the head of the entry is filled in only for an empty path).  The
    profile id looked up is that of a user with the reference's username;
    when no user has that username it is the profile id the caller
    gave. *)
Theorem ResolveRef_by_name_sound
    (d : dscache.Dscache) (root : dscachefb.Dscache) (ref ref' : dsref.Ref) :
  dscache.Root d = Some root ->
  dsref.InitID ref = "" ->
  dscache.ResolveRef (Some d) (Some ref) = Go.Done (Some ref', "", None) ->
  exists e,
    In e (dscachefb.Refs root)
    /\ dscachefb.PrettyName e = dsref.Name ref
    /\ dscachefb.ProfileID e <> ""
    /\ dsref.InitID ref' = dscachefb.InitID e
    /\ dsref.ProfileID ref' = dscachefb.ProfileID e
    /\ dsref.Username ref' = dsref.Username ref
    /\ dsref.Name ref' = dsref.Name ref
    /\ dsref.Path ref' = (if String.eqb (dsref.Path ref) ""
                          then dscachefb.HeadRef e else dsref.Path ref)
    /\ ((exists u, In u (dscachefb.Users root)
                   /\ dscachefb.uaUsername u = dsref.Username ref
                   /\ dscachefb.ProfileID e = dscachefb.uaProfileID u)
        \/ ((forall u, In u (dscachefb.Users root) ->
                       dscachefb.uaUsername u <> dsref.Username ref)
            /\ dscachefb.ProfileID e = dsref.ProfileID ref)).
Proof.
  intros Hroot Hid Hres.
  rewrite (ResolveRef_by_name_eq d root Hroot ref Hid) in Hres.
  destruct (dscache.LookupByName root ref) as [vi|err] eqn:Hlookup;
    [|discriminate].
  destruct (LookupByName_found root ref vi Hlookup)
    as (e & Hin & -> & Hname & Hpro & Huser).
  injection Hres as <-.
  exists e. simpl.
  split; [exact Hin|]. split; [exact Hname|]. split; [exact Hpro|].
  repeat (split; [reflexivity|]). exact Huser.
Qed.

(** alice/world_bank with a path of the caller's, on the cache of one
    dataset. *)
Lemma ResolveRef_by_name_sound_witness :
  exists e,
    In e [Samples.fresh "I1" "world_bank"]
    /\ dscachefb.PrettyName e = "world_bank"
    /\ dscachefb.ProfileID e <> ""
    /\ "I1" = dscachefb.InitID e
    /\ Samples.alicePro = dscachefb.ProfileID e
    /\ "alice" = "alice"
    /\ "world_bank" = "world_bank"
    /\ "/hash/old" = (if String.eqb "/hash/old" ""
                      then dscachefb.HeadRef e else "/hash/old")
    /\ ((exists u, In u [Samples.alice]
                   /\ dscachefb.uaUsername u = "alice"
                   /\ dscachefb.ProfileID e = dscachefb.uaProfileID u)
        \/ ((forall u, In u [Samples.alice] ->
                       dscachefb.uaUsername u <> "alice")
            /\ dscachefb.ProfileID e = "")).
Proof.
  apply (ResolveRef_by_name_sound Samples.oneDataset
           (dscachefb.mkRoot [Samples.alice] [Samples.fresh "I1" "world_bank"])
           (dsref.mkRef "alice" "" "world_bank" "" "/hash/old")
           (dsref.mkRef "alice" Samples.alicePro "world_bank" "I1" "/hash/old")).
  - reflexivity.
  - reflexivity.
  - reflexivity.
Defined.

Lemma NoDup_map_injective_on {A B : Type} (f : A -> B) (l : list A) (a b : A) :
  NoDup (map f l) -> In a l -> In b l -> f a = f b -> a = b.
Proof.
  induction l as [|x l IH]; simpl; intros Hnd Ha Hb Hf; [contradiction|].
  inversion Hnd as [|? ? Hnotin Hnd']; subst.
  destruct Ha as [->|Ha], Hb as [->|Hb].
  - reflexivity.
  - exfalso. apply Hnotin. rewrite Hf. apply in_map. exact Hb.
  - exfalso. apply Hnotin. rewrite <- Hf. apply in_map. exact Ha.
  - apply IH; assumption.
Qed.

(** X4.  Name to init id and back: on a cache whose entries have distinct
    init ids, when a lookup by name succeeds with a non-empty init id, the
    lookup of its result by init id succeeds too and gives the same init
    id, name and profile id. *)
Theorem ResolveRef_name_then_InitID
    (d : dscache.Dscache) (root : dscachefb.Dscache) (ref ref1 : dsref.Ref) :
  dscache.Root d = Some root ->
  NoDup (map dscachefb.InitID (dscachefb.Refs root)) ->
  dsref.InitID ref = "" ->
  dscache.ResolveRef (Some d) (Some ref) = Go.Done (Some ref1, "", None) ->
  dsref.InitID ref1 <> "" ->
  exists ref2,
    dscache.ResolveRef (Some d) (Some ref1) = Go.Done (Some ref2, "", None)
    /\ dsref.InitID ref2 = dsref.InitID ref1
    /\ dsref.Name ref2 = dsref.Name ref1
    /\ dsref.ProfileID ref2 = dsref.ProfileID ref1.
Proof.
  intros Hroot Hnd Hid Hres Hid1.
  rewrite (ResolveRef_by_name_eq d root Hroot ref Hid) in Hres.
  destruct (dscache.LookupByName root ref) as [vi|err] eqn:Hlookup;
    [|discriminate].
  destruct (LookupByName_found root ref vi Hlookup)
    as (e & Hin & -> & Hname & _).
  injection Hres as <-.
  rewrite (ResolveRef_by_id d root Hroot _ Hid1).
  unfold dscache.completeRef. simpl.
  destruct (find (fun r => String.eqb (dscachefb.InitID r) (dscachefb.InitID e))
                 (dscachefb.Refs root)) as [e'|] eqn:Hfind.
  - apply find_some in Hfind. destruct Hfind as [Hin' Heq].
    apply String.eqb_eq in Heq.
    assert (e' = e)
      by (apply (NoDup_map_injective_on dscachefb.InitID (dscachefb.Refs root));
          assumption).
    subst e'. unfold dscache.userByProfileID. simpl.
    destruct (find _ (dscachefb.Users root)); simpl;
      eexists; (split; [reflexivity|]); simpl; auto.
  - exfalso. pose proof (find_none _ _ Hfind e Hin) as Hnone. simpl in Hnone.
    rewrite String.eqb_refl in Hnone. discriminate.
Qed.

(** alice/city_pop resolves to "I2", and "I2" back to alice/city_pop. *)
Lemma ResolveRef_name_then_InitID_witness :
  exists ref2,
    dscache.ResolveRef (Some Samples.twoDatasets)
      (Some (dsref.mkRef "alice" Samples.alicePro "city_pop" "I2" ""))
    = Go.Done (Some ref2, "", None)
    /\ dsref.InitID ref2 = "I2"
    /\ dsref.Name ref2 = "city_pop"
    /\ dsref.ProfileID ref2 = Samples.alicePro.
Proof.
  apply (ResolveRef_name_then_InitID Samples.twoDatasets
           (dscachefb.mkRoot [Samples.alice]
              [Samples.fresh "I1" "world_bank"; Samples.fresh "I2" "city_pop"])
           (dsref.mkRef "alice" "" "city_pop" "" "")
           (dsref.mkRef "alice" Samples.alicePro "city_pop" "I2" "")).
  - reflexivity.
  - simpl. repeat constructor; simpl; intuition discriminate.
  - reflexivity.
  - reflexivity.
  - discriminate.
Defined.

(** ** A cache that was not opted in *)

Lemma handler_empty_not_creating
    (ioutil_WriteFile : string -> option dscachefb.Dscache -> option error)
    (d : dscache.Dscache) (e : event.Event) (w : dscache.World) :
  dscache.Root d = None ->
  dscache.CreateNewEnabled d = false ->
  exists w',
    dscache.handler ioutil_WriteFile d e w = Go.Done (None, d, w')
    /\ dscache.disk w' = dscache.disk w.
Proof.
  intros Hroot Hgate. destruct e as [ty payload].
  unfold dscache.handler, dscache.updateInitDataset,
    dscache.updateChangeCursor, dscache.updateDeleteDataset.
  destruct ty, payload; simpl; rewrite ?Hroot, ?Hgate; simpl;
    eexists; split; reflexivity.
Qed.

Lemma handleAll_empty_not_creating
    (ioutil_WriteFile : string -> option dscachefb.Dscache -> option error)
    (d : dscache.Dscache) (events : list event.Event) (w : dscache.World) :
  dscache.Root d = None ->
  dscache.CreateNewEnabled d = false ->
  exists w',
    dscache.handleAll ioutil_WriteFile d events w = Go.Done (d, w')
    /\ dscache.disk w' = dscache.disk w.
Proof.
  intros Hroot Hgate. revert w.
  induction events as [|e rest IH]; intro w; simpl.
  - exists w. split; reflexivity.
  - destruct (handler_empty_not_creating ioutil_WriteFile d e w Hroot Hgate)
      as (w1 & -> & Hdisk1).
    simpl. destruct (IH w1) as (w' & -> & Hdisk).
    exists w'. split; [reflexivity|]. congruence.
Qed.

(** X5.  A cache opened with [NewDscache] on a file that cannot be loaded
    (it is missing, or it cannot be read) is empty, keeps the file name and
    the username it was given, and has [CreateNewEnabled] unset; whatever
    events the bus then delivers, in whatever number, it stays as it is and
    nothing is written to disk. *)
Theorem NewDscache_without_file_stays_empty
    (File : Type) (fsys_Get : string -> File + error)
    (ioutil_ReadAll : File -> dscachefb.Dscache + error)
    (ioutil_WriteFile : string -> option dscachefb.Dscache -> option error)
    (username filename : string)
    (events : list event.Event) (w : dscache.World) :
  (forall f buffer,
      fsys_Get filename = inl f -> ioutil_ReadAll f <> inl buffer) ->
  exists w',
    fst (dscache.NewDscache File fsys_Get ioutil_ReadAll username filename)
    = dscache.mkDscache filename None None false username
    /\ dscache.handleAll ioutil_WriteFile
         (dscache.mkDscache filename None None false username) events w
       = Go.Done (dscache.mkDscache filename None None false username, w')
    /\ dscache.disk w' = dscache.disk w.
Proof.
  intro Hfile.
  destruct (handleAll_empty_not_creating ioutil_WriteFile
              (dscache.mkDscache filename None None false username)
              events w eq_refl eq_refl) as (w' & Hrun & Hdisk).
  exists w'. split; [|split; assumption].
  unfold dscache.NewDscache.
  destruct (fsys_Get filename) as [f|err] eqn:Hget; [|reflexivity].
  destruct (ioutil_ReadAll f) as [buffer|err] eqn:Hread; [|reflexivity].
  exfalso. apply (Hfile f buffer); [reflexivity|exact Hread].
Qed.

(** No file "dscache.qfb": a name-init and a commit leave the cache empty
    and the disk untouched. *)
Lemma NewDscache_without_file_stays_empty_witness :
  exists w',
    fst (dscache.NewDscache unit (fun _ => inr (Errorf "path not found"))
           (fun _ => inr (Errorf "unreachable")) "alice" "dscache.qfb")
    = dscache.mkDscache "dscache.qfb" None None false "alice"
    /\ dscache.handleAll Samples.diskOk
         (dscache.mkDscache "dscache.qfb" None None false "alice")
         [Samples.nameInit "I1" Samples.alicePro "world_bank";
          Samples.writeCommit 1]
         dscache.emptyWorld
       = Go.Done (dscache.mkDscache "dscache.qfb" None None false "alice", w')
    /\ dscache.disk w' = dscache.disk dscache.emptyWorld.
Proof.
  apply (NewDscache_without_file_stays_empty unit
           (fun _ => inr (Errorf "path not found"))
           (fun _ => inr (Errorf "unreachable"))
           Samples.diskOk "alice" "dscache.qfb"
           [Samples.nameInit "I1" Samples.alicePro "world_bank";
            Samples.writeCommit 1]
           dscache.emptyWorld).
  intros f buffer Hget. discriminate.
Defined.

(** ** Events and lookups *)

Lemma find_map_same_test {A : Type} (p : A -> bool) (f : A -> A) (l : list A) :
  (forall x, p (f x) = p x) ->
  find p (map f l) = option_map f (find p l).
Proof.
  intro H. induction l as [|x l IH]; simpl; [reflexivity|].
  rewrite H. destruct (p x); [reflexivity|exact IH].
Qed.

Lemma find_exists {A : Type} (p : A -> bool) (l : list A) (x : A) :
  In x l -> p x = true -> exists y, find p l = Some y.
Proof.
  intros Hin Hp. destruct (find p l) as [y|] eqn:Hfind; [eauto|].
  rewrite (find_none _ _ Hfind x Hin) in Hp. discriminate.
Qed.

Lemma changeCursor_keeps_InitID (act : dsref.VersionInfo)
    (r : dscachefb.RefEntryInfo) :
  dscachefb.InitID
    (if String.eqb (dscachefb.InitID r) (dsref.viInitID act)
     then dscache.changeCursor act r else r)
  = dscachefb.InitID r.
Proof. destruct (String.eqb _ _); reflexivity. Qed.

Lemma len_46_not_empty (s : string) :
  Go.len s = dscache.lengthOfProfileID -> String.eqb s "" = false.
Proof.
  intro H. apply String.eqb_neq. intros ->. discriminate.
Qed.

(** X6.  Scenario S1 in general: on an empty cache that may be created, a
    name-init with a profile id of length 46 makes the cache, and a lookup
    of the event's username and name on the new cache gives the event's
    init id and profile id, with an empty path. *)
Theorem NameInit_then_ResolveRef_by_name
    (ioutil_WriteFile : string -> option dscachefb.Dscache -> option error)
    (d : dscache.Dscache) (act : dsref.VersionInfo) (w : dscache.World) :
  dscache.Root d = None ->
  dscache.CreateNewEnabled d = true ->
  Go.len (dsref.viProfileID act) = dscache.lengthOfProfileID ->
  exists d' w',
    dscache.handler ioutil_WriteFile d
      (event.mkEvent event.ETDatasetNameInit (event.PVersionInfo act)) w
    = Go.Done (None, d', w')
    /\ dscache.ResolveRef (Some d')
         (Some (dsref.mkRef (dsref.viUsername act) "" (dsref.viName act) "" ""))
       = Go.Done (Some (dsref.mkRef (dsref.viUsername act)
                                    (dsref.viProfileID act)
                                    (dsref.viName act)
                                    (dsref.viInitID act) ""),
                  "", None).
Proof.
  intros Hroot Hgate Hlen.
  unfold dscache.handler, dscache.updateInitDataset. simpl.
  rewrite Hroot, Hgate. unfold dscache.validateProfileID.
  rewrite (proj2 (Z.eqb_eq _ _) Hlen). simpl.
  unfold dscache.Assign.
  destruct (dscache.save ioutil_WriteFile _ w) as [err w'].
  eexists _, _. split; [reflexivity|].
  unfold dscache.ResolveRef. simpl.
  unfold dscache.LookupByName, dscache.userByUsername. simpl.
  rewrite String.eqb_refl. simpl.
  rewrite (len_46_not_empty _ Hlen).
  rewrite !String.eqb_refl. simpl. reflexivity.
Qed.

(** alice's "world_bank", on the empty cache that may be created. *)
Lemma NameInit_then_ResolveRef_by_name_witness :
  exists d' w',
    dscache.handler Samples.diskOk Samples.emptyCacheCreating
      (Samples.nameInit "I1" Samples.alicePro "world_bank") dscache.emptyWorld
    = Go.Done (None, d', w')
    /\ dscache.ResolveRef (Some d')
         (Some (dsref.mkRef "alice" "" "world_bank" "" ""))
       = Go.Done (Some (dsref.mkRef "alice" Samples.alicePro "world_bank"
                                    "I1" ""),
                  "", None).
Proof.
  apply (NameInit_then_ResolveRef_by_name Samples.diskOk
           Samples.emptyCacheCreating
           (Samples.infoOf "I1" Samples.alicePro "world_bank")
           dscache.emptyWorld).
  - reflexivity.
  - reflexivity.
  - reflexivity.
Defined.

(** X7.  Scenario S2 in general: when the cache holds an entry with the
    init id of an [ETLogbookWriteCommit] event, then after the handler has
    run, [ResolveRef] for that init id succeeds and gives the path of the
    event as the head. *)
Theorem WriteCommit_then_ResolveRef
    (ioutil_WriteFile : string -> option dscachefb.Dscache -> option error)
    (d : dscache.Dscache) (root : dscachefb.Dscache)
    (act : dsref.VersionInfo) (w : dscache.World) (ref : dsref.Ref) :
  dscache.Root d = Some root ->
  dsref.viInitID act <> "" ->
  (exists e, In e (dscachefb.Refs root)
             /\ dscachefb.InitID e = dsref.viInitID act) ->
  dsref.InitID ref = dsref.viInitID act ->
  exists d' w',
    dscache.handler ioutil_WriteFile d
      (event.mkEvent event.ETLogbookWriteCommit (event.PVersionInfo act)) w
    = Go.Done (None, d', w')
    /\ exists ref',
         dscache.ResolveRef (Some d') (Some ref)
         = Go.Done (Some ref', "", None)
         /\ dsref.InitID ref' = dsref.viInitID act
         /\ dsref.Path ref' = dsref.viPath act.
Proof.
  intros Hroot Hid (e & Hin & He) Href.
  pose proof (updateChangeCursor_root ioutil_WriteFile d root act w Hroot)
    as Hupd.
  unfold dscache.handler. simpl. rewrite Hupd. simpl.
  eexists _, _. split; [reflexivity|].
  unfold dscache.ResolveRef. simpl.
  rewrite Href. apply String.eqb_neq in Hid. rewrite Hid. simpl.
  unfold dscache.completeRef. simpl. rewrite Href.
  rewrite (find_map_same_test
             (fun r => String.eqb (dscachefb.InitID r) (dsref.viInitID act))).
  2:{ intro r. rewrite changeCursor_keeps_InitID. reflexivity. }
  destruct (find_exists
              (fun r => String.eqb (dscachefb.InitID r) (dsref.viInitID act))
              (dscachefb.Refs root) e Hin) as [e0 Hfind].
  { apply String.eqb_eq. exact He. }
  rewrite Hfind. simpl.
  apply find_some in Hfind. destruct Hfind as [_ Hmatch]. rewrite Hmatch.
  unfold dscache.userByProfileID. simpl.
  destruct (find _ (dscachefb.Users root)); simpl;
    eexists; (split; [reflexivity|]); simpl; split; reflexivity.
Qed.

(** The first commit of "I1" on the cache of one dataset. *)
Lemma WriteCommit_then_ResolveRef_witness :
  exists d' w',
    dscache.handler Samples.diskOk Samples.oneDataset
                    (Samples.writeCommit 1) dscache.emptyWorld
    = Go.Done (None, d', w')
    /\ exists ref',
         dscache.ResolveRef (Some d') (Some (dsref.mkRef "" "" "" "I1" ""))
         = Go.Done (Some ref', "", None)
         /\ dsref.InitID ref' = "I1"
         /\ dsref.Path ref' = "/hash/p1".
Proof.
  apply (WriteCommit_then_ResolveRef Samples.diskOk Samples.oneDataset
           (dscachefb.mkRoot [Samples.alice] [Samples.fresh "I1" "world_bank"])
           (Samples.commitInfo 1) dscache.emptyWorld
           (dsref.mkRef "" "" "" "I1" "")).
  - reflexivity.
  - discriminate.
  - exists (Samples.fresh "I1" "world_bank"). split; [left|]; reflexivity.
  - reflexivity.
Defined.

Lemma changeCursor_twice (act : dsref.VersionInfo)
    (l : list dscachefb.RefEntryInfo) :
  map (fun r => if String.eqb (dscachefb.InitID r) (dsref.viInitID act)
                then dscache.changeCursor act r else r)
      (map (fun r => if String.eqb (dscachefb.InitID r) (dsref.viInitID act)
                     then dscache.changeCursor act r else r) l)
  = map (fun r => if String.eqb (dscachefb.InitID r) (dsref.viInitID act)
                  then dscache.changeCursor act r else r) l.
Proof.
  rewrite map_map. apply map_ext. intro r.
  destruct (String.eqb (dscachefb.InitID r) (dsref.viInitID act)) eqn:E.
  - simpl. rewrite E. reflexivity.
  - rewrite E. reflexivity.
Qed.

(** X8.  The handler is idempotent on commit events: on a cache that holds
    data, delivering the same [ETLogbookWriteCommit] event a second time
    leaves the cache exactly as the first delivery left it. *)
Theorem handler_WriteCommit_idempotent
    (ioutil_WriteFile : string -> option dscachefb.Dscache -> option error)
    (d : dscache.Dscache) (root : dscachefb.Dscache)
    (act : dsref.VersionInfo) (w : dscache.World) :
  dscache.Root d = Some root ->
  exists d1 w1 w2,
    dscache.handler ioutil_WriteFile d
      (event.mkEvent event.ETLogbookWriteCommit (event.PVersionInfo act)) w
    = Go.Done (None, d1, w1)
    /\ dscache.handler ioutil_WriteFile d1
         (event.mkEvent event.ETLogbookWriteCommit (event.PVersionInfo act)) w1
       = Go.Done (None, d1, w2).
Proof.
  intro Hroot.
  pose proof (updateChangeCursor_root ioutil_WriteFile d root act w Hroot)
    as Hupd.
  unfold dscache.handler. simpl. rewrite Hupd. simpl.
  eexists _, _, _. split; [reflexivity|].
  match goal with
  | |- context [dscache.updateChangeCursor _ ?d1 _ ?w1] =>
      pose proof (updateChangeCursor_root ioutil_WriteFile d1 _ act w1 eq_refl)
        as Hupd2
  end.
  rewrite Hupd2. simpl. rewrite changeCursor_twice. reflexivity.
Qed.

(** The commit of scenario S2, delivered twice. *)
Lemma handler_WriteCommit_idempotent_witness :
  exists d1 w1 w2,
    dscache.handler Samples.diskOk Samples.twoDatasets
                    (Samples.writeCommit 1) dscache.emptyWorld
    = Go.Done (None, d1, w1)
    /\ dscache.handler Samples.diskOk d1 (Samples.writeCommit 1) w1
       = Go.Done (None, d1, w2).
Proof.
  apply (handler_WriteCommit_idempotent Samples.diskOk Samples.twoDatasets
           (dscachefb.mkRoot [Samples.alice]
              [Samples.fresh "I1" "world_bank"; Samples.fresh "I2" "city_pop"])
           (Samples.commitInfo 1) dscache.emptyWorld).
  reflexivity.
Defined.




(** X10.  On a cache that holds data, no event changes the users, the file
    name, the opt-in flag or the default username, and none empties the
    cache: after every run of the handler that returns, the cache still
    holds a table, with the users it had before (deleting the last entry
    leaves a table without entries, not an empty cache). *)
Theorem handler_keeps_users
    (ioutil_WriteFile : string -> option dscachefb.Dscache -> option error)
    (d : dscache.Dscache) (root : dscachefb.Dscache) (e : event.Event)
    (w : dscache.World)
    (err : option error) (d' : dscache.Dscache) (w' : dscache.World) :
  dscache.Root d = Some root ->
  dscache.handler ioutil_WriteFile d e w = Go.Done (err, d', w') ->
  exists root',
    dscache.Root d' = Some root'
    /\ dscachefb.Users root' = dscachefb.Users root
    /\ dscache.IsEmpty (Some d') = false
    /\ dscache.Filename d' = dscache.Filename d
    /\ dscache.CreateNewEnabled d' = dscache.CreateNewEnabled d
    /\ dscache.DefaultUsername d' = dscache.DefaultUsername d.
Proof.
  intros Hroot Hrun.
  assert (Hsame : d' = d -> exists root',
    dscache.Root d' = Some root'
    /\ dscachefb.Users root' = dscachefb.Users root
    /\ dscache.IsEmpty (Some d') = false
    /\ dscache.Filename d' = dscache.Filename d
    /\ dscache.CreateNewEnabled d' = dscache.CreateNewEnabled d
    /\ dscache.DefaultUsername d' = dscache.DefaultUsername d).
  { intros ->. exists root. unfold dscache.IsEmpty. rewrite Hroot.
    repeat split; reflexivity. }
  assert (Hrebuilt : forall refs,
    d' = dscache.rebuilt d (dscachefb.Users root) refs -> exists root',
    dscache.Root d' = Some root'
    /\ dscachefb.Users root' = dscachefb.Users root
    /\ dscache.IsEmpty (Some d') = false
    /\ dscache.Filename d' = dscache.Filename d
    /\ dscache.CreateNewEnabled d' = dscache.CreateNewEnabled d
    /\ dscache.DefaultUsername d' = dscache.DefaultUsername d).
  { intros refs ->. eexists. repeat split; reflexivity. }
  destruct e as [ty payload].
  unfold dscache.handler in Hrun.
  destruct ty; simpl in Hrun;
    try (injection Hrun as _ <- _; apply Hsame; reflexivity).
  - destruct payload as [act| | |]; simpl in Hrun;
      try (injection Hrun as _ <- _; apply Hsame; reflexivity).
    destruct (le_lt_dec (dscachefb.UsersLength root)
                        (dscachefb.RefsLength root)) as [Hle|Hlt].
    + rewrite (updateInitDataset_keeps_prefix ioutil_WriteFile d root act w
                 Hroot Hle) in Hrun.
      simpl in Hrun. injection Hrun as _ <- _.
      eapply Hrebuilt. reflexivity.
    + rewrite (updateInitDataset_reads_outside ioutil_WriteFile d root act w
                 Hroot Hlt) in Hrun.
      discriminate.
  - destruct payload as [act| | |]; simpl in Hrun;
      try (injection Hrun as _ <- _; apply Hsame; reflexivity).
    rewrite (updateChangeCursor_root ioutil_WriteFile d root act w Hroot)
      in Hrun.
    simpl in Hrun. injection Hrun as _ <- _.
    eapply Hrebuilt. reflexivity.
  - destruct payload as [|initID| |]; simpl in Hrun;
      try (injection Hrun as _ <- _; apply Hsame; reflexivity).
    rewrite (updateDeleteDataset_root ioutil_WriteFile d root initID w Hroot)
      in Hrun.
    simpl in Hrun. injection Hrun as _ <- _.
    eapply Hrebuilt. reflexivity.
Qed.

(** Deleting the only dataset of the cache. *)
Lemma handler_keeps_users_witness :
  exists root',
    dscache.Root (dscache.rebuilt Samples.oneDataset [Samples.alice] [])
    = Some root'
    /\ dscachefb.Users root' = [Samples.alice]
    /\ dscache.IsEmpty
         (Some (dscache.rebuilt Samples.oneDataset [Samples.alice] []))
       = false
    /\ dscache.Filename (dscache.rebuilt Samples.oneDataset [Samples.alice] [])
       = "dscache.qfb"
    /\ dscache.CreateNewEnabled
         (dscache.rebuilt Samples.oneDataset [Samples.alice] [])
       = false
    /\ dscache.DefaultUsername
         (dscache.rebuilt Samples.oneDataset [Samples.alice] [])
       = "alice".
Proof.
  apply (handler_keeps_users Samples.diskOk Samples.oneDataset
           (dscachefb.mkRoot [Samples.alice] [Samples.fresh "I1" "world_bank"])
           (Samples.deleteAll "I1") dscache.emptyWorld
           None (dscache.rebuilt Samples.oneDataset [Samples.alice] [])
           (dscache.fsdo dscache.emptyWorld
              (dscache.OpWriteFile "dscache.qfb"
                 (Some (dscachefb.mkRoot [Samples.alice] [])) 420))).
  - reflexivity.
  - reflexivity.
Defined.

(** X11.  A name-init on a cache that holds data copies the users and does
    not add the user of the event.  So when the event's username is not
    among the users of the cache, the dataset just added cannot be looked
    up by its username and name: [ResolveRef] returns [ErrRefNotFound]. *)
Theorem NameInit_of_unknown_user_not_resolvable
    (ioutil_WriteFile : string -> option dscachefb.Dscache -> option error)
    (d : dscache.Dscache) (root : dscachefb.Dscache)
    (act : dsref.VersionInfo) (w : dscache.World) :
  dscache.Root d = Some root ->
  (dscachefb.UsersLength root <= dscachefb.RefsLength root)%nat ->
  (forall u, In u (dscachefb.Users root) ->
             dscachefb.uaUsername u <> dsref.viUsername act) ->
  exists d' w' root',
    dscache.handler ioutil_WriteFile d
      (event.mkEvent event.ETDatasetNameInit (event.PVersionInfo act)) w
    = Go.Done (None, d', w')
    /\ dscache.Root d' = Some root'
    /\ dscachefb.Users root' = dscachefb.Users root
    /\ In (dsref.viInitID act) (map dscachefb.InitID (dscachefb.Refs root'))
    /\ dscache.ResolveRef (Some d')
         (Some (dsref.mkRef (dsref.viUsername act) "" (dsref.viName act) "" ""))
       = Go.Done (Some (dsref.mkRef (dsref.viUsername act) ""
                                    (dsref.viName act) "" ""),
                  "", Some ErrRefNotFound).
Proof.
  intros Hroot Hle Hunknown.
  unfold dscache.handler. simpl.
  rewrite (updateInitDataset_keeps_prefix ioutil_WriteFile d root act w
             Hroot Hle).
  simpl. eexists _, _, _.
  split; [reflexivity|]. split; [reflexivity|]. split; [reflexivity|].
  split.
  - simpl. rewrite map_app. apply in_or_app. right. left. reflexivity.
  - unfold dscache.ResolveRef. simpl.
    unfold dscache.LookupByName, dscache.userByUsername. simpl.
    destruct (find (fun u => String.eqb (dsref.viUsername act)
                                        (dscachefb.uaUsername u))
                   (dscachefb.Users root)) as [u|] eqn:Hfind.
    + exfalso. apply find_some in Hfind. destruct Hfind as [Hin Heq].
      apply String.eqb_eq in Heq. apply (Hunknown u Hin). congruence.
    + reflexivity.
Qed.

(** bob's first dataset arrives on a cache that knows alice only. *)
Lemma NameInit_of_unknown_user_not_resolvable_witness :
  exists d' w' root',
    dscache.handler Samples.diskOk Samples.oneDataset
      (event.mkEvent event.ETDatasetNameInit
         (event.PVersionInfo
            (dsref.mkVersionInfo "I7" "bob" Samples.alicePro "rivers"
               "" false false "" "" 0 0 "" 0 0 0 "")))
      dscache.emptyWorld
    = Go.Done (None, d', w')
    /\ dscache.Root d' = Some root'
    /\ dscachefb.Users root' = [Samples.alice]
    /\ In "I7" (map dscachefb.InitID (dscachefb.Refs root'))
    /\ dscache.ResolveRef (Some d') (Some (dsref.mkRef "bob" "" "rivers" "" ""))
       = Go.Done (Some (dsref.mkRef "bob" "" "rivers" "" ""), "",
                  Some ErrRefNotFound).
Proof.
  apply (NameInit_of_unknown_user_not_resolvable Samples.diskOk
           Samples.oneDataset
           (dscachefb.mkRoot [Samples.alice] [Samples.fresh "I1" "world_bank"])
           (dsref.mkVersionInfo "I7" "bob" Samples.alicePro "rivers"
              "" false false "" "" 0 0 "" 0 0 0 "")
           dscache.emptyWorld).
  - reflexivity.
  - unfold dscachefb.UsersLength, dscachefb.RefsLength. simpl. lia.
  - intros u [<-|[]]. discriminate.
Defined.

(** ** Listing the references *)

Section ListRefsFacts.

Import dscachefb dscache.

Variable ID : Type.
Variable profile_IDB58Decode : string -> ID * option error.

Lemma listedRef_fields (m : UsernameMap) (e : RefEntryInfo) :
  let r := fst (listedRef ID profile_IDB58Decode m e) in
  drName r = PrettyName e
  /\ drPath r = HeadRef e
  /\ drFSIPath r = FsiPath e
  /\ drMetaTitle r = MetaTitle e
  /\ drNumVersions r = TopIndex e
  /\ drErrCount r = NumErrors e
  /\ drEntries r = BodyRows e
  /\ drLength r = BodySize e
  /\ drProfileID r = fst (profile_IDB58Decode (ProfileID e))
  /\ Peername r = match mapIndex m (ProfileID e) with
                  | Some username => username
                  | None => ""
                  end.
Proof.
  unfold listedRef.
  destruct (profile_IDB58Decode (ProfileID e)) as [profileID err].
  destruct (mapIndex m (ProfileID e)); simpl; repeat split; reflexivity.
Qed.

Lemma mapIndex_mapAssign (m : UsernameMap) (key value p : string) :
  mapIndex (mapAssign m key value) p
  = if String.eqb key p then Some value else mapIndex m p.
Proof.
  unfold mapIndex, mapAssign. simpl.
  destruct (String.eqb_spec key p) as [Heq|Hneq]; [reflexivity|].
  f_equal. induction m as [|[k v] m IH]; simpl; [reflexivity|].
  destruct (String.eqb_spec k key) as [->|Hk]; simpl.
  - destruct (String.eqb_spec key p); [contradiction|exact IH].
  - destruct (String.eqb k p); [reflexivity|exact IH].
Qed.

Lemma find_app {A : Type} (p : A -> bool) (l1 l2 : list A) :
  find p (l1 ++ l2)
  = match find p l1 with Some x => Some x | None => find p l2 end.
Proof.
  induction l1 as [|x l1 IH]; simpl; [reflexivity|].
  destruct (p x); [reflexivity|exact IH].
Qed.

(** The map built from the users gives, for a profile id, the username of
    the last association with it. *)
Lemma mapIndex_users (users : list UserAssoc) (m : UsernameMap) (p : string) :
  mapIndex (fold_left (fun m u => mapAssign m (uaProfileID u) (uaUsername u))
                      users m) p
  = match find (fun u => String.eqb (uaProfileID u) p) (rev users) with
    | Some u => Some (uaUsername u)
    | None => mapIndex m p
    end.
Proof.
  revert m. induction users as [|u users IH]; intro m; simpl; [reflexivity|].
  rewrite IH, find_app. simpl.
  destruct (find _ (rev users)); [reflexivity|].
  rewrite mapIndex_mapAssign.
  destruct (String.eqb (uaProfileID u) p); reflexivity.
Qed.

Lemma find_unique {A : Type} (f : A -> string) (l : list A) (x : A) :
  NoDup (map f l) -> In x l ->
  find (fun y => String.eqb (f y) (f x)) l = Some x.
Proof.
  intros Hnd Hin.
  destruct (find_exists (fun y => String.eqb (f y) (f x)) l x Hin
              (String.eqb_refl _)) as [y Hfind].
  rewrite Hfind. f_equal.
  apply find_some in Hfind. destruct Hfind as [Hy Heq].
  apply String.eqb_eq in Heq.
  apply (NoDup_map_injective_on f l); assumption.
Qed.

Lemma find_rev_unique {A : Type} (f : A -> string) (l : list A) (p : string) :
  NoDup (map f l) ->
  find (fun y => String.eqb (f y) p) (rev l)
  = find (fun y => String.eqb (f y) p) l.
Proof.
  intro Hnd.
  destruct (find (fun y => String.eqb (f y) p) l) as [x|] eqn:Hfind.
  - apply find_some in Hfind. destruct Hfind as [Hin Heq].
    apply String.eqb_eq in Heq. subst p.
    apply find_unique.
    + rewrite map_rev. apply NoDup_rev. exact Hnd.
    + apply in_rev. rewrite rev_involutive. exact Hin.
  - destruct (find _ (rev l)) as [y|] eqn:Hrev; [|reflexivity].
    apply find_some in Hrev. destruct Hrev as [Hin Heq].
    apply in_rev in Hin.
    rewrite (find_none _ _ Hfind y Hin) in Heq. discriminate.
Qed.

End ListRefsFacts.


(** X13.  [ListRefs] and [ResolveRef] agree on the owner: on a cache whose
    users have distinct profile ids and whose entries have distinct init
    ids, with no username map built yet, the reference [ListRefs] returns
    for an entry carries the username, name and path that [ResolveRef]
    fills in for the init id of that entry. *)
Theorem ListRefs_agrees_with_ResolveRef
    (ID : Type) (profile_IDB58Decode : string -> ID * option error)
    (d : dscache.Dscache) (root : dscachefb.Dscache)
    (e : dscachefb.RefEntryInfo) :
  dscache.Root d = Some root ->
  NoDup (map dscachefb.uaProfileID (dscachefb.Users root)) ->
  NoDup (map dscachefb.InitID (dscachefb.Refs root)) ->
  In e (dscachefb.Refs root) ->
  dscachefb.InitID e <> "" ->
  exists rs m logs r ref',
    dscache.ListRefs ID profile_IDB58Decode (Some d) None
    = (Some rs, None, m, logs)
    /\ In r rs
    /\ dscache.ResolveRef (Some d)
         (Some (dsref.mkRef "" "" "" (dscachefb.InitID e) ""))
       = Go.Done (Some ref', "", None)
    /\ dsref.Username ref' = dscache.Peername r
    /\ dsref.Name ref' = dscache.drName r
    /\ dsref.Path ref' = dscache.drPath r.
Proof.
  intros Hroot Husers Hrefs Hin Hid.
  unfold dscache.ListRefs. rewrite Hroot. cbv zeta.
  remember (dscache.ensureProToUserMap root None) as M eqn:HM.
  assert (Hidx :
    dscache.mapIndex M (dscachefb.ProfileID e)
    = option_map dscachefb.uaUsername
        (dscache.userByProfileID root (dscachefb.ProfileID e))).
  { subst M. unfold dscache.ensureProToUserMap, dscache.userByProfileID.
    rewrite mapIndex_users, find_rev_unique by exact Husers.
    destruct (find _ (dscachefb.Users root)); reflexivity. }
  pose proof (listedRef_fields ID profile_IDB58Decode M e) as Hfields.
  cbv zeta in Hfields.
  destruct Hfields as (Hname & Hpath & _ & _ & _ & _ & _ & _ & _ & Hpeer).
  rewrite Hidx in Hpeer.
  assert (HinR :
    In (fst (dscache.listedRef ID profile_IDB58Decode M e))
       (map fst (map (dscache.listedRef ID profile_IDB58Decode M)
                     (dscachefb.Refs root)))).
  { rewrite map_map.
    apply (in_map (fun x => fst (dscache.listedRef ID profile_IDB58Decode M x))).
    exact Hin. }
  eexists _, _, _.
  exists (fst (dscache.listedRef ID profile_IDB58Decode M e)).
  rewrite (ResolveRef_by_id d root Hroot
             (dsref.mkRef "" "" "" (dscachefb.InitID e) "") Hid).
  unfold dscache.completeRef.
  replace (dsref.InitID (dsref.mkRef "" "" "" (dscachefb.InitID e) ""))
    with (dscachefb.InitID e) by reflexivity.
  rewrite (find_unique dscachefb.InitID (dscachefb.Refs root) e Hrefs Hin).
  rewrite Hpeer, Hname, Hpath.
  replace (dsref.ProfileID
             (dsref.mkRef (dsref.Username (dsref.mkRef "" "" ""
                                             (dscachefb.InitID e) ""))
                          (dscachefb.ProfileID e) (dscachefb.PrettyName e)
                          (dscachefb.InitID e) (dscachefb.HeadRef e)))
    with (dscachefb.ProfileID e) by reflexivity.
  destruct (dscache.userByProfileID root (dscachefb.ProfileID e)) as [u|];
    eexists; (split; [reflexivity|]); (split; [exact HinR|]);
    (split; [reflexivity|]); repeat split; reflexivity.
Qed.

(** The second dataset of the cache of two. *)
Lemma ListRefs_agrees_with_ResolveRef_witness :
  exists rs m logs r ref',
    dscache.ListRefs string (fun s => (s, None))
                     (Some Samples.twoDatasets) None
    = (Some rs, None, m, logs)
    /\ In r rs
    /\ dscache.ResolveRef (Some Samples.twoDatasets)
         (Some (dsref.mkRef "" "" "" "I2" ""))
       = Go.Done (Some ref', "", None)
    /\ dsref.Username ref' = dscache.Peername r
    /\ dsref.Name ref' = dscache.drName r
    /\ dsref.Path ref' = dscache.drPath r.
Proof.
  apply (ListRefs_agrees_with_ResolveRef string (fun s => (s, None))
           Samples.twoDatasets
           (dscachefb.mkRoot [Samples.alice]
              [Samples.fresh "I1" "world_bank"; Samples.fresh "I2" "city_pop"])
           (Samples.fresh "I2" "city_pop")).
  - reflexivity.
  - simpl. repeat constructor; simpl; intuition discriminate.
  - simpl. repeat constructor; simpl; intuition discriminate.
  - right. left. reflexivity.
  - discriminate.
Defined.

(** Listing the cache of two datasets: two references of alice's, nothing
    logged. *)
Example ListRefs_twoDatasets :
  dscache.ListRefs string (fun s => (s, None)) (Some Samples.twoDatasets) None
  = (Some [dscache.mkDatasetRef "alice" Samples.alicePro "world_bank" "" ""
                                "" 0 0 0 0;
           dscache.mkDatasetRef "alice" Samples.alicePro "city_pop" "" ""
                                "" 0 0 0 0],
     None, Some [(Samples.alicePro, "alice")], []).
Proof. reflexivity. Qed.

(** ** Author headers *)

Lemma Get_Set_same (h : http.Header) (key value : string) :
  http.Get (http.Set_ h key value) key = value.
Proof. unfold http.Get, http.Set_. simpl. rewrite String.eqb_refl. reflexivity. Qed.

Lemma Get_Set_other (h : http.Header) (key value other : string) :
  key <> other ->
  http.Get (http.Set_ h key value) other = http.Get h other.
Proof.
  intro Hneq. unfold http.Get, http.Set_. simpl.
  apply String.eqb_neq in Hneq. rewrite Hneq.
  induction h as [|[k v] h IH]; simpl; [reflexivity|].
  destruct (String.eqb_spec k key) as [->|Hk]; simpl.
  - rewrite Hneq. exact IH.
  - destruct (String.eqb k other); [reflexivity|exact IH].
Qed.

Lemma author_headers_read_back
    (X : logsync.Externals) (h : http.Header) (author : logsync.Author X)
    (pubByteStr : string) :
  logsync.PubKey_Bytes X (logsync.AuthorPubKey author) = inl pubByteStr ->
  logsync.base64_DecodeString X (logsync.base64_EncodeToString X pubByteStr)
  = inl pubByteStr ->
  logsync.crypto_UnmarshalPublicKey X pubByteStr
  = inl (logsync.AuthorPubKey author) ->
  snd (logsync.addAuthorHTTPHeaders X h author) = None
  /\ logsync.senderFromHTTPHeaders X
       (fst (logsync.addAuthorHTTPHeaders X h author))
     = inl author.
Proof.
  intros Hbytes Hb64 Hkey.
  unfold logsync.addAuthorHTTPHeaders. rewrite Hbytes. simpl.
  split; [reflexivity|].
  unfold logsync.senderFromHTTPHeaders.
  rewrite Get_Set_same, Hb64, Hkey.
  rewrite Get_Set_other by discriminate.
  rewrite Get_Set_same. destruct author; reflexivity.
Qed.

(** X14.  Author headers round-trip: when the key of an author marshals to
    bytes that base64 and the key codec give back, the headers
    [addAuthorHTTPHeaders] sets, on any header map, are read by
    [senderFromHTTPHeaders] as that same author (id and key), whatever
    [AuthorID] and [PubKey] the map held before. *)
Theorem author_headers_round_trip
    (X : logsync.Externals) (h : http.Header) (author : logsync.Author X)
    (pubByteStr : string) :
  logsync.PubKey_Bytes X (logsync.AuthorPubKey author) = inl pubByteStr ->
  logsync.base64_DecodeString X (logsync.base64_EncodeToString X pubByteStr)
  = inl pubByteStr ->
  logsync.crypto_UnmarshalPublicKey X pubByteStr
  = inl (logsync.AuthorPubKey author) ->
  exists h',
    logsync.addAuthorHTTPHeaders X h author = (h', None)
    /\ logsync.senderFromHTTPHeaders X h' = inl author.
Proof.
  intros Hbytes Hb64 Hkey.
  destruct (author_headers_read_back X h author pubByteStr Hbytes Hb64 Hkey)
    as [Herr Hread].
  destruct (logsync.addAuthorHTTPHeaders X h author) as [h' err].
  simpl in *. subst err. exists h'. split; [reflexivity|exact Hread].
Qed.

(** alice's headers over headers of someone else. *)
Lemma author_headers_round_trip_witness :
  exists h',
    logsync.addAuthorHTTPHeaders Samples.offline
      [("AuthorID", "mallory"); ("PubKey", "!")] Samples.aliceAuthor
    = (h', None)
    /\ logsync.senderFromHTTPHeaders Samples.offline h'
       = inl Samples.aliceAuthor.
Proof.
  apply (author_headers_round_trip Samples.offline
           [("AuthorID", "mallory"); ("PubKey", "!")] Samples.aliceAuthor
           "alice-key").
  - reflexivity.
  - reflexivity.
  - reflexivity.
Defined.

(** ** What the handler answers *)

(** X15.  A GET that the logsync accepts is answered with status 200, the
    log as the only body, and the author headers of the receiver that
    [lsync.get] returned: when that author's key round-trips through the
    codecs, [senderFromHTTPHeaders] reads the receiver back from the
    response headers. *)
Theorem HTTPHandler_GET_serves_log
    (X : logsync.Externals) (lsync : logsync.Logsync X)
    (r : @http.Request (logsync.Reader X))
    (sender receiver : logsync.Author X) (ref : logsync.DatasetRef X)
    (rd : logsync.Reader X) (pubByteStr : string) :
  logsync.senderFromHTTPHeaders X (http.ReqHeader r) = inl sender ->
  http.Method r = "GET" ->
  logsync.repo_ParseDatasetRef X (http.FormValue r "ref") = inl ref ->
  logsync.lsync_get lsync sender (logsync.repo_ConvertToDsref X ref)
  = inl (receiver, rd) ->
  logsync.PubKey_Bytes X (logsync.AuthorPubKey receiver) = inl pubByteStr ->
  logsync.base64_DecodeString X (logsync.base64_EncodeToString X pubByteStr)
  = inl pubByteStr ->
  logsync.crypto_UnmarshalPublicKey X pubByteStr
  = inl (logsync.AuthorPubKey receiver) ->
  http.status (logsync.HTTPHandler X lsync http.newResponseWriter r)
  = http.StatusOK
  /\ http.wBody (logsync.HTTPHandler X lsync http.newResponseWriter r)
     = [http.Stream rd]
  /\ logsync.senderFromHTTPHeaders X
       (http.wHeader (logsync.HTTPHandler X lsync http.newResponseWriter r))
     = inl receiver.
Proof.
  intros Hsender Hmethod Hparse Hget Hbytes Hb64 Hkey.
  unfold logsync.HTTPHandler.
  rewrite Hsender, Hmethod, Hparse, Hget. simpl.
  split; [reflexivity|]. split; [reflexivity|].
  apply (author_headers_read_back X [] receiver pubByteStr Hbytes Hb64 Hkey).
Qed.

(** alice pulls the log the server holds. *)
Lemma HTTPHandler_GET_serves_log_witness :
  http.status (logsync.HTTPHandler Samples.offline
                 (Samples.serverKnowing "alice/world_bank")
                 http.newResponseWriter
                 (Samples.request "GET" "alice/world_bank"))
  = http.StatusOK
  /\ http.wBody (logsync.HTTPHandler Samples.offline
                   (Samples.serverKnowing "alice/world_bank")
                   http.newResponseWriter
                   (Samples.request "GET" "alice/world_bank"))
     = [http.Stream "oplog"]
  /\ logsync.senderFromHTTPHeaders Samples.offline
       (http.wHeader (logsync.HTTPHandler Samples.offline
                        (Samples.serverKnowing "alice/world_bank")
                        http.newResponseWriter
                        (Samples.request "GET" "alice/world_bank")))
     = inl Samples.serverAuthor.
Proof.
  apply (HTTPHandler_GET_serves_log Samples.offline
           (Samples.serverKnowing "alice/world_bank")
           (Samples.request "GET" "alice/world_bank")
           Samples.aliceAuthor Samples.serverAuthor
           "alice/world_bank" "oplog" "server-key");
    reflexivity.
Defined.

(** X16.  A request the handler turns down gets nothing but the refusal:
    status 400, a body that is exactly the text of one error, and no
    header set (in particular no author headers of the server). *)
Theorem HTTPHandler_rejection_is_bare
    (X : logsync.Externals) (lsync : logsync.Logsync X)
    (r : @http.Request (logsync.Reader X)) :
  Stated.Rejected X lsync r ->
  exists err,
    logsync.HTTPHandler X lsync http.newResponseWriter r
    = http.mkResponseWriter (Some http.StatusBadRequest) []
                            [http.ErrorText err].
Proof.
  intros [e H|s e H [Hm|Hm] Hp|s e H Hm Hf|s ref e H Hm Hp Hf
         |s ref e H Hm Hp Hf];
    unfold logsync.HTTPHandler; rewrite H; try rewrite Hm; simpl;
    rewrite ?Hp, ?Hf; eexists; reflexivity.
Qed.

(** A DELETE without reference. *)
Lemma HTTPHandler_rejection_is_bare_witness :
  exists err,
    logsync.HTTPHandler Samples.offline
      (Samples.serverKnowing "alice/world_bank") http.newResponseWriter
      (Samples.request "DELETE" "")
    = http.mkResponseWriter (Some http.StatusBadRequest) []
                            [http.ErrorText err].
Proof.
  apply (HTTPHandler_rejection_is_bare Samples.offline
           (Samples.serverKnowing "alice/world_bank")
           (Samples.request "DELETE" "")).
  eapply (Stated.UnparsableRef Samples.offline
            (Samples.serverKnowing "alice/world_bank")
            (Samples.request "DELETE" "") Samples.aliceAuthor).
  - reflexivity.
  - right. reflexivity.
  - reflexivity.
Defined.

(** ** What the client returns *)



(** X18.  [get] can return nothing at all: when the server answers with a
    status other than 200 and the body of the answer cannot be read, [get]
    returns no author, no log and no error. *)
Theorem get_returns_nothing_on_unreadable_refusal
    (X : logsync.Externals) (c : logsync.HTTPClient)
    (author : logsync.Author X) (ref : dsref.Ref)
    (req : @http.Request (logsync.Reader X)) (h : http.Header)
    (res : @http.Response (logsync.Reader X)) (readErr : error) :
  logsync.http_NewRequest X "GET" (logsync.refURL X c ref) None = inl req ->
  logsync.addAuthorHTTPHeaders X (http.ReqHeader req) author = (h, None) ->
  logsync.http_DefaultClient_Do X (http.withHeader req h) = (Some res, None) ->
  http.StatusCode res <> http.StatusOK ->
  logsync.ioutil_ReadAll X (http.ResBody res) = inr readErr ->
  logsync.get X c author ref = Go.Done (None, None, None).
Proof.
  intros Hreq Hhdr Hdo Hstatus Hread.
  apply Z.eqb_neq in Hstatus.
  unfold logsync.get. rewrite Hreq, Hhdr, Hdo, Hstatus, Hread. reflexivity.
Qed.

(** A 500 whose body breaks off. *)
Lemma get_returns_nothing_on_unreadable_refusal_witness :
  logsync.get Samples.broken Samples.client Samples.aliceBroken
              (dsref.mkRef "alice" "" "alice/world_bank" "" "")
  = Go.Done (None, None, None).
Proof.
  apply (get_returns_nothing_on_unreadable_refusal
           Samples.broken Samples.client Samples.aliceBroken
           (dsref.mkRef "alice" "" "alice/world_bank" "" "")
           (http.mkRequest "GET" "http://registry/logsync?ref=alice/world_bank"
                           [] (fun _ => "") None)
           [("PubKey", "alice-key"); ("AuthorID", "alice")]
           (http.mkResponse 500 [] "") (Errorf "unexpected EOF")).
  - reflexivity.
  - reflexivity.
  - reflexivity.
  - discriminate.
  - reflexivity.
Defined.

(** X19.  [get] never reads a response before it has looked at the error
    of the transport: when the transport returns an error, with or without
    a response, [get] returns that error and nothing else, and does not
    fault. *)
Theorem get_returns_transport_failure
    (X : logsync.Externals) (c : logsync.HTTPClient)
    (author : logsync.Author X) (ref : dsref.Ref)
    (req : @http.Request (logsync.Reader X)) (h : http.Header)
    (res : option (@http.Response (logsync.Reader X))) (err : error) :
  logsync.http_NewRequest X "GET" (logsync.refURL X c ref) None = inl req ->
  logsync.addAuthorHTTPHeaders X (http.ReqHeader req) author = (h, None) ->
  logsync.http_DefaultClient_Do X (http.withHeader req h) = (res, Some err) ->
  logsync.get X c author ref = Go.Done (None, None, Some err).
Proof.
  intros Hreq Hhdr Hdo.
  unfold logsync.get. rewrite Hreq, Hhdr, Hdo. destruct res; reflexivity.
Qed.

(** The network is down. *)
Lemma get_returns_transport_failure_witness :
  logsync.get Samples.offline Samples.client Samples.aliceAuthor
              (dsref.mkRef "alice" "" "alice/world_bank" "" "")
  = Go.Done (None, None, Some (Errorf "dial tcp: connection refused")).
Proof.
  apply (get_returns_transport_failure Samples.offline Samples.client
           Samples.aliceAuthor
           (dsref.mkRef "alice" "" "alice/world_bank" "" "")
           (http.mkRequest "GET" "http://registry/logsync?ref=alice/world_bank"
                           [] (fun _ => "") None)
           [("PubKey", "alice-key"); ("AuthorID", "alice")]
           None (Errorf "dial tcp: connection refused")).
  - reflexivity.
  - reflexivity.
  - reflexivity.
Defined.

(** ** Names across events *)

Lemma find_none_filtered {A : Type} (p keep : A -> bool) (l : list A) :
  (forall x, In x l -> p x = true -> keep x = false) ->
  find p (filter keep l) = None.
Proof.
  intro H. induction l as [|x l IH]; simpl; [reflexivity|].
  assert (IH' : find p (filter keep l) = None)
    by (apply IH; intros y Hy; apply H; right; exact Hy).
  destruct (keep x) eqn:Hkeep; [|exact IH'].
  simpl. destruct (p x) eqn:Hp; [|exact IH'].
  rewrite (H x (or_introl eq_refl) Hp) in Hkeep. discriminate.
Qed.

(** X20.  Scenario S4 by name: when every entry with the name of a
    reference belongs to the deleted init id, then after the handler has
    run for [ETDatasetDeleteAll], [ResolveRef] for that reference (by
    username and name) returns [ErrRefNotFound]. *)
Theorem DeleteAll_then_ResolveRef_by_name
    (ioutil_WriteFile : string -> option dscachefb.Dscache -> option error)
    (d : dscache.Dscache) (root : dscachefb.Dscache)
    (initID : string) (w : dscache.World) (ref : dsref.Ref) :
  dscache.Root d = Some root ->
  dsref.InitID ref = "" ->
  (forall e, In e (dscachefb.Refs root) ->
             dscachefb.PrettyName e = dsref.Name ref ->
             dscachefb.InitID e = initID) ->
  exists d' w',
    dscache.handler ioutil_WriteFile d
      (event.mkEvent event.ETDatasetDeleteAll (event.PString initID)) w
    = Go.Done (None, d', w')
    /\ dscache.ResolveRef (Some d') (Some ref)
       = Go.Done (Some ref, "", Some ErrRefNotFound).
Proof.
  intros Hroot Hid Hnames.
  pose proof (updateDeleteDataset_root ioutil_WriteFile d root initID w Hroot)
    as Hupd.
  unfold dscache.handler. simpl. rewrite Hupd. simpl.
  eexists _, _. split; [reflexivity|].
  unfold dscache.ResolveRef. simpl. rewrite Hid. simpl.
  unfold dscache.LookupByName. simpl.
  match goal with
  | |- context [String.eqb ?p ""] => destruct (String.eqb p ""); [reflexivity|]
  end.
  rewrite find_none_filtered; [reflexivity|].
  intros e He Hmatch.
  apply andb_true_iff in Hmatch. destruct Hmatch as [_ Hn].
  apply String.eqb_eq in Hn.
  rewrite (Hnames e He Hn), String.eqb_refl. reflexivity.
Qed.

(** alice/world_bank after the deletion of "I1". *)
Lemma DeleteAll_then_ResolveRef_by_name_witness :
  exists d' w',
    dscache.handler Samples.diskOk Samples.twoDatasets
                    (Samples.deleteAll "I1") dscache.emptyWorld
    = Go.Done (None, d', w')
    /\ dscache.ResolveRef (Some d')
         (Some (dsref.mkRef "alice" "" "world_bank" "" ""))
       = Go.Done (Some (dsref.mkRef "alice" "" "world_bank" "" ""), "",
                  Some ErrRefNotFound).
Proof.
  apply (DeleteAll_then_ResolveRef_by_name Samples.diskOk Samples.twoDatasets
           (dscachefb.mkRoot [Samples.alice]
              [Samples.fresh "I1" "world_bank"; Samples.fresh "I2" "city_pop"])
           "I1" dscache.emptyWorld
           (dsref.mkRef "alice" "" "world_bank" "" "")).
  - reflexivity.
  - reflexivity.
  - intros e [<-|[<-|[]]] Hname; [reflexivity|discriminate].
Defined.

Lemma changeCursor_keeps_name_test (act : dsref.VersionInfo)
    (profileID name : string) (r : dscachefb.RefEntryInfo) :
  (String.eqb (dscachefb.ProfileID
                 (if String.eqb (dscachefb.InitID r) (dsref.viInitID act)
                  then dscache.changeCursor act r else r)) profileID
   && String.eqb (dscachefb.PrettyName
                    (if String.eqb (dscachefb.InitID r) (dsref.viInitID act)
                     then dscache.changeCursor act r else r)) name)%bool
  = (String.eqb (dscachefb.ProfileID r) profileID
     && String.eqb (dscachefb.PrettyName r) name)%bool.
Proof. destruct (String.eqb (dscachefb.InitID r) _); reflexivity. Qed.

(** X21.  A commit changes no name: on a cache that holds data, a lookup
    by username and name gives, after the handler has run for an
    [ETLogbookWriteCommit] event, the same error (none or
    [ErrRefNotFound]) and the same init id and profile id as before. *)
Theorem WriteCommit_keeps_names
    (ioutil_WriteFile : string -> option dscachefb.Dscache -> option error)
    (d : dscache.Dscache) (root : dscachefb.Dscache)
    (act : dsref.VersionInfo) (w : dscache.World) (ref : dsref.Ref) :
  dscache.Root d = Some root ->
  dsref.InitID ref = "" ->
  exists d' w' before after err,
    dscache.handler ioutil_WriteFile d
      (event.mkEvent event.ETLogbookWriteCommit (event.PVersionInfo act)) w
    = Go.Done (None, d', w')
    /\ dscache.ResolveRef (Some d) (Some ref) = Go.Done (Some before, "", err)
    /\ dscache.ResolveRef (Some d') (Some ref) = Go.Done (Some after, "", err)
    /\ dsref.InitID after = dsref.InitID before
    /\ dsref.ProfileID after = dsref.ProfileID before
    /\ dsref.Name after = dsref.Name before
    /\ dsref.Username after = dsref.Username before.
Proof.
  intros Hroot Hid.
  pose proof (updateChangeCursor_root ioutil_WriteFile d root act w Hroot)
    as Hupd.
  cbv zeta in Hupd.
  set (refs' :=
         map (fun r => if String.eqb (dscachefb.InitID r) (dsref.viInitID act)
                       then dscache.changeCursor act r else r)
             (dscachefb.Refs root)) in *.
  set (d1 := dscache.rebuilt d (dscachefb.Users root) refs') in *.
  assert (Hrun :
    dscache.handler ioutil_WriteFile d
      (event.mkEvent event.ETLogbookWriteCommit (event.PVersionInfo act)) w
    = Go.Done (None, d1,
               dscache.logUnlessNoDscache
                 (fst (dscache.save ioutil_WriteFile d1 w))
                 (snd (dscache.save ioutil_WriteFile d1 w)))).
  { unfold dscache.handler. simpl. rewrite Hupd. reflexivity. }
  exists d1. eexists. 
  rewrite (ResolveRef_by_name_eq d root Hroot ref Hid).
  rewrite (ResolveRef_by_name_eq d1
             (dscachefb.mkRoot (dscachefb.Users root) refs') eq_refl ref Hid).
  unfold dscache.LookupByName, dscache.userByUsername.
  change (dscachefb.Users (dscachefb.mkRoot (dscachefb.Users root) refs'))
    with (dscachefb.Users root).
  change (dscachefb.Refs (dscachefb.mkRoot (dscachefb.Users root) refs'))
    with refs'.
  set (profileID :=
         match find (fun u => String.eqb (dsref.Username ref)
                                         (dscachefb.uaUsername u))
                    (dscachefb.Users root) with
         | Some u => dscachefb.uaProfileID u
         | None => dsref.ProfileID ref
         end).
  destruct (String.eqb profileID "").
  { eexists _, _, _. split; [exact Hrun|].
    repeat (split; [reflexivity|]). reflexivity. }
  subst refs'.
  rewrite (find_map_same_test _ _ _
             (changeCursor_keeps_name_test act profileID (dsref.Name ref))).
  destruct (find _ (dscachefb.Refs root)) as [e|]; simpl.
  - eexists _, _, _. split; [exact Hrun|]. split; [reflexivity|].
    split; [reflexivity|]. simpl.
    destruct (String.eqb (dscachefb.InitID e) (dsref.viInitID act));
      repeat split; reflexivity.
  - eexists _, _, _. split; [exact Hrun|].
    repeat (split; [reflexivity|]). reflexivity.
Qed.

(** alice/world_bank before and after the first commit of "I1". *)
Lemma WriteCommit_keeps_names_witness :
  exists d' w' before after err,
    dscache.handler Samples.diskOk Samples.oneDataset
                    (Samples.writeCommit 1) dscache.emptyWorld
    = Go.Done (None, d', w')
    /\ dscache.ResolveRef (Some Samples.oneDataset)
         (Some (dsref.mkRef "alice" "" "world_bank" "" ""))
       = Go.Done (Some before, "", err)
    /\ dscache.ResolveRef (Some d')
         (Some (dsref.mkRef "alice" "" "world_bank" "" ""))
       = Go.Done (Some after, "", err)
    /\ dsref.InitID after = dsref.InitID before
    /\ dsref.ProfileID after = dsref.ProfileID before
    /\ dsref.Name after = dsref.Name before
    /\ dsref.Username after = dsref.Username before.
Proof.
  apply (WriteCommit_keeps_names Samples.diskOk Samples.oneDataset
           (dscachefb.mkRoot [Samples.alice] [Samples.fresh "I1" "world_bank"])
           (Samples.commitInfo 1) dscache.emptyWorld
           (dsref.mkRef "alice" "" "world_bank" "" "")).
  - reflexivity.
  - reflexivity.
Defined.
